(** * The API manager of the assistant: routing, fallback, hybrid requests
      and synthesis

    A shallow embedding of [src/apis/api_manager.py] together with the two
    clients it drives ([src/apis/gemini_client.py],
    [src/apis/perplexity_client.py]), and the properties of the router, the
    hybrid executor and the synthesizer.

    Conventions of the embedding.
    - An [async def] is a tree of the awaited outside interactions
      ([Prog]): the Gemini SDK call, the Perplexity HTTP POST and the read
      of the event loop's clock.  What the outside answers is not fixed by
      the program; [run] interprets a tree against arbitrary oracles.
    - A Python exception is a value of [exn]; a coroutine that may raise
      returns [exn + A] ([M A]); [try ... except Exception] is [try_except].
      Only subclasses of [Exception] are modelled (a [BaseException] such
      as a cancellation is outside the model).
    - Calls of the structured logger only report; they neither change a
      result nor raise, and are left out.  An [except] block that logs and
      re-raises is therefore the identity.
    - Keyword options are a finite map.  Where a call splices them into
      a signature, the binding of the named parameters and the
      [TypeError] of a collision belong to the call (the [_kw]
      definitions).
    - Python dictionaries whose iteration order is observed (the result of
      [hybrid_request], the input of [synthesize_responses]) are
      association lists in insertion order; the others are [gmap]s. *)

From Stdlib Require Import ZArith.
From stdpp Require Import gmap strings list fin_maps.

Local Open Scope Z_scope.
Local Open Scope string_scope.

(** ** Python values *)

(** An exception object: its class, its message and its [__cause__]. *)
#[warnings="-register-all"]
Inductive exn : Type :=
| Exn (cls : string) (msg : string) (cause : option exn).

Definition exn_class (e : exn) : string := let 'Exn c _ _ := e in c.
Definition exn_msg (e : exn) : string := let 'Exn _ m _ := e in m.
Definition exn_cause (e : exn) : option exn := let 'Exn _ _ c := e in c.

Definition ValueError (msg : string) : exn := Exn "ValueError" msg None.
Definition KeyError (key : string) : exn := Exn "KeyError" key None.
Definition IndexError (msg : string) : exn := Exn "IndexError" msg None.
Definition TypeError (msg : string) : exn := Exn "TypeError" msg None.

(** A value passed as a keyword option.  The code only tests such a value
    for truth, formats it into a prompt, or forwards it. *)
Inductive PyVal : Type :=
| VNone
| VBool (b : bool)
| VStr (s : string)
| VObj (str : string) (truth : bool).

Definition truthy (v : PyVal) : bool :=
  match v with
  | VNone => false
  | VBool b => b
  | VStr s => negb (String.eqb s "")
  | VObj _ t => t
  end.

Definition py_str (v : PyVal) : string :=
  match v with
  | VNone => "None"
  | VBool true => "True"
  | VBool false => "False"
  | VStr s => s
  | VObj s _ => s
  end.

(** [**kwargs] *)
Abbreviation Kwargs := (gmap string PyVal).

(** [d.get(key, 0)] on a usage dictionary. *)
Definition usage_get (d : gmap string Z) (key : string) : Z := default 0 (d !! key).

(** [d[key]] on a usage dictionary. *)
Definition usage_getitem (d : gmap string Z) (key : string) : exn + Z :=
  match d !! key with
  | Some v => inr v
  | None => inl (KeyError key)
  end.

Definition nl : string := String (Ascii.ascii_of_nat 10) "".

(** [sep.join(parts)] *)
Fixpoint join (sep : string) (parts : list string) : string :=
  match parts with
  | [] => ""
  | [p] => p
  | p :: rest => p +:+ sep +:+ join sep rest
  end.

(** [d[key] = v] on a dictionary kept in insertion order. *)
Fixpoint dict_set {V} (key : string) (v : V) (d : list (string * V)) : list (string * V) :=
  match d with
  | [] => [(key, v)]
  | (k, x) :: rest =>
      if String.eqb k key then (k, v) :: rest else (k, x) :: dict_set key v rest
  end.

(** [d.get(key)] on a dictionary kept in insertion order. *)
Fixpoint dict_get {V} (key : string) (d : list (string * V)) : option V :=
  match d with
  | [] => None
  | (k, x) :: rest => if String.eqb k key then Some x else dict_get key rest
  end.

(** ** Data of the two upstream services *)

(** What [GenerativeModel.generate_content] hands back, as far as
    [generate_text] reads it. *)
Record UsageMetadata := {
  prompt_token_count : Z;
  candidates_token_count : Z;
  total_token_count : Z
}.

Record SafetyRating := { rating_category : string; rating_probability : string }.

Record Candidate := {
  cand_finish_reason : string;
  cand_safety_ratings : list SafetyRating
}.

Record GenerateContentResponse := {
  gc_text : option string;
  gc_usage_metadata : option UsageMetadata;
  gc_candidates : list Candidate
}.

(** [GeminiResponse] *)
Record GeminiResponse := {
  g_content : string;
  g_usage : gmap string Z;
  g_model : string;
  g_finish_reason : string;
  g_safety_ratings : option (list SafetyRating)
}.

(** One citation record, an uninterpreted mapping. *)
Abbreviation Citation := (gmap string string).

(** The decoded JSON body of a chat-completions reply; an absent key is
    [None]. *)
Record PplxChoice := {
  ch_message : option (option string);   (* message, then message.content *)
  ch_finish_reason : option string
}.

Record PplxData := {
  d_choices : option (list PplxChoice);
  d_citations : option (list Citation);
  d_usage : option (gmap string Z)
}.

(** The JSON payload of the POST; [pl_extra] is the [**kwargs] spliced in
    last. *)
Record PplxPayload := {
  pl_model : string;
  pl_messages : list (string * PyVal);
  pl_temperature : PyVal;
  pl_max_tokens : PyVal;
  pl_return_citations : PyVal;
  pl_return_images : PyVal;
  pl_extra : Kwargs;
  pl_search_domain_filter : option PyVal
}.

(** [PerplexityResponse] *)
Record PerplexityResponse := {
  p_content : string;
  p_citations : list Citation;
  p_usage : gmap string Z;
  p_model : string;
  p_finish_reason : string
}.

(** A reading of the event loop's clock; the value is never inspected. *)
Record Timestamp := { ts_ticks : Z }.

(** ** Coroutines *)

Inductive Prog (A : Type) : Type :=
| Ret (a : A)
| GenerateContent (full_prompt : string) (kwargs : Kwargs)
    (k : exn + GenerateContentResponse -> Prog A)
| Post (payload : PplxPayload) (k : exn + PplxData -> Prog A)
| LoopTime (k : Timestamp -> Prog A).

Arguments Ret {A} a.
Arguments GenerateContent {A} full_prompt kwargs k.
Arguments Post {A} payload k.
Arguments LoopTime {A} k.

Fixpoint pbind {A B} (p : Prog A) (f : A -> Prog B) : Prog B :=
  match p with
  | Ret a => f a
  | GenerateContent fp kw k => GenerateContent fp kw (fun r => pbind (k r) f)
  | Post pl k => Post pl (fun r => pbind (k r) f)
  | LoopTime k => LoopTime (fun t => pbind (k t) f)
  end.

(** A coroutine that may raise. *)
Abbreviation M A := (Prog (exn + A)).

Definition ret {A} (a : A) : M A := Ret (inr a).
Definition raise {A} (e : exn) : M A := Ret (inl e).

Definition bind {A B} (m : M A) (f : A -> M B) : M B :=
  pbind m (fun r => match r with inl e => Ret (inl e) | inr a => f a end).

(** [try: m  except Exception as e: h e] *)
Definition try_except {A} (m : M A) (h : exn -> M A) : M A :=
  pbind m (fun r => match r with inl e => h e | inr a => Ret (inr a) end).

Declare Scope prog_scope.
Delimit Scope prog_scope with prog.
Notation "x <- m ;; f" := (bind m (fun x => f))
  (at level 100, m at next level, right associativity) : prog_scope.
Local Open Scope prog_scope.

(** ** [asyncio.gather] with [return_exceptions=True]

    The tasks run interleaved; a task gives up control only where it
    awaits the outside.  Which task the event loop resumes next is not
    decided by the program: [sched] lists the indices of the tasks in the
    order they are resumed (an index of a finished or missing task is
    skipped), and when the list is used up the tasks still pending run to
    completion one after the other.  With [return_exceptions=True] the
    outcome of a task, result or exception, is an element of the returned
    list, in the order of the tasks. *)

Fixpoint run_in_order {A} (tasks : list (Prog A)) : Prog (list A) :=
  match tasks with
  | [] => Ret []
  | task :: rest =>
      pbind task (fun a => pbind (run_in_order rest) (fun l => Ret (a :: l)))
  end.

Fixpoint gather {A} (sched : list nat) (tasks : list (Prog A)) : Prog (list A) :=
  match sched with
  | [] => run_in_order tasks
  | i :: sched' =>
      match tasks !! i with
      | Some (GenerateContent fp kw k) =>
          GenerateContent fp kw (fun r => gather sched' (<[i := k r]> tasks))
      | Some (Post pl k) =>
          Post pl (fun r => gather sched' (<[i := k r]> tasks))
      | Some (LoopTime k) =>
          LoopTime (fun now => gather sched' (<[i := k now]> tasks))
      | Some (Ret _) | None => gather sched' tasks
      end
  end.

(** The network events of a run. *)
Inductive Event : Type :=
| EvGemini (full_prompt : string) (kwargs : Kwargs)
| EvPerplexity (payload : PplxPayload)
| EvClock.

Section Run.
(** The outside world: the two services and the clock, each a function
    of the request and of an arbitrary state. *)
Context {World : Type}.
Variable gemini_api : string -> Kwargs -> World -> (exn + GenerateContentResponse) * World.
Variable perplexity_api : PplxPayload -> World -> (exn + PplxData) * World.
Variable clock : World -> Timestamp * World.

Fixpoint run {A} (p : Prog A) (w : World) : A * World * list Event :=
  match p with
  | Ret a => (a, w, [])
  | GenerateContent fp kw k =>
      let '(r, w1) := gemini_api fp kw w in
      let '(a, w2, evs) := run (k r) w1 in
      (a, w2, EvGemini fp kw :: evs)
  | Post pl k =>
      let '(r, w1) := perplexity_api pl w in
      let '(a, w2, evs) := run (k r) w1 in
      (a, w2, EvPerplexity pl :: evs)
  | LoopTime k =>
      let '(t, w1) := clock w in
      let '(a, w2, evs) := run (k t) w1 in
      (a, w2, EvClock :: evs)
  end.
End Run.

(** ** The Gemini client ([gemini_client.py]) *)

Module GeminiClient.

(** The [usage] dictionary built from [response.usage_metadata]. *)
Definition usage_of (response : GenerateContentResponse) : gmap string Z :=
  {[ "prompt_tokens" :=
       match gc_usage_metadata response with
       | Some um => prompt_token_count um | None => 0 end;
     "completion_tokens" :=
       match gc_usage_metadata response with
       | Some um => candidates_token_count um | None => 0 end;
     "total_tokens" :=
       match gc_usage_metadata response with
       | Some um => total_token_count um | None => 0 end ]}.

(** The prompt sent upstream. *)
Definition full_prompt_of (prompt : string) (system_instruction : PyVal) : string :=
  if truthy system_instruction
  then "System: " +:+ py_str system_instruction +:+ nl +:+ nl +:+ "User: " +:+ prompt
  else prompt.

(** [generate_text(self, prompt, system_instruction=None, **kwargs)];
    [model_name] is [self.model_name]. *)
Definition generate_text (model_name : string) (prompt : string)
    (system_instruction : PyVal) (kwargs : Kwargs) : M GeminiResponse :=
  let full_prompt := full_prompt_of prompt system_instruction in
  GenerateContent full_prompt kwargs (fun r =>
    match r with
    | inl e => raise e
    | inr response =>
        let content := default "" (gc_text response) in
        let usage := usage_of response in
        let finish_reason :=
          match gc_candidates response with
          | c :: _ => cand_finish_reason c
          | [] => "UNKNOWN"
          end in
        let safety_ratings :=
          match gc_candidates response with
          | c :: _ =>
              match cand_safety_ratings c with
              | [] => None
              | rs => Some rs
              end
          | [] => None
          end in
        ret {| g_content := content;
               g_usage := usage;
               g_model := model_name;
               g_finish_reason := finish_reason;
               g_safety_ratings := safety_ratings |}
    end).

(** The call [generate_text(prompt, **kwargs)]: a [system_instruction]
    among the options binds the named parameter. *)
Definition generate_text_kw (model_name prompt : string) (kwargs : Kwargs)
    : M GeminiResponse :=
  generate_text model_name prompt
    (default VNone (kwargs !! "system_instruction"))
    (delete "system_instruction" kwargs).

End GeminiClient.

(** ** The Perplexity client ([perplexity_client.py]) *)

Module PerplexityClient.

(** The attributes of the client that a request reads. *)
Record t := {
  model_name : string;
  temperature : PyVal;
  max_tokens : PyVal
}.

(** [data["choices"][0]] and the fields read from it. *)
Definition extract_choice (data : PplxData) : exn + (string * string) :=
  match d_choices data with
  | None => inl (KeyError "choices")
  | Some [] => inl (IndexError "list index out of range")
  | Some (choice :: _) =>
      match ch_message choice with
      | None => inl (KeyError "message")
      | Some None => inl (KeyError "content")
      | Some (Some content) =>
          match ch_finish_reason choice with
          | None => inl (KeyError "finish_reason")
          | Some finish_reason => inr (content, finish_reason)
          end
      end
  end.

(** [search_and_answer(self, query, system_message=None,
    return_citations=True, return_images=False,
    search_domain_filter=None, **kwargs)] *)
Definition search_and_answer (self : t) (query : string)
    (system_message return_citations return_images search_domain_filter : PyVal)
    (kwargs : Kwargs) : M PerplexityResponse :=
  let messages :=
    ((if truthy system_message then [("system", system_message)] else [])
     ++ [("user", VStr query)])%list in
  let payload :=
    {| pl_model := model_name self;
       pl_messages := messages;
       pl_temperature := temperature self;
       pl_max_tokens := max_tokens self;
       pl_return_citations := return_citations;
       pl_return_images := return_images;
       pl_extra := kwargs;
       pl_search_domain_filter :=
         if truthy search_domain_filter then Some search_domain_filter else None |} in
  Post payload (fun r =>
    match r with
    | inl e => raise e
    | inr data =>
        match extract_choice data with
        | inl e => raise e
        | inr (content, finish_reason) =>
            let citations :=
              if truthy return_citations
              then default [] (d_citations data)
              else [] in
            let usage := default ∅ (d_usage data) in
            ret {| p_content := content;
                   p_citations := citations;
                   p_usage := usage;
                   p_model := model_name self;
                   p_finish_reason := finish_reason |}
        end
    end).

(** The call [search_and_answer(prompt, **kwargs)]: the options named
    like a parameter bind it, the others travel in the payload; an
    option called [query] collides with the positional argument. *)
Definition search_and_answer_kw (self : t) (prompt : string) (kwargs : Kwargs)
    : M PerplexityResponse :=
  match kwargs !! "query" with
  | Some _ =>
      raise (TypeError
               "PerplexityClient.search_and_answer() got multiple values for argument 'query'")
  | None =>
      search_and_answer self prompt
        (default VNone (kwargs !! "system_message"))
        (default (VBool true) (kwargs !! "return_citations"))
        (default (VBool false) (kwargs !! "return_images"))
        (default VNone (kwargs !! "search_domain_filter"))
        (delete "system_message"
           (delete "return_citations"
              (delete "return_images"
                 (delete "search_domain_filter" kwargs))))
  end.

Definition fact_check_system_message : string :=
  "You are a fact-checker. Analyze the statement and provide:" +:+ nl +:+
  "1. Verification status (True/False/Partially True/Unverifiable)" +:+ nl +:+
  "2. Supporting evidence with citations" +:+ nl +:+
  "3. Contradicting evidence if any" +:+ nl +:+
  "4. Confidence level" +:+ nl +:+
  "5. Additional context or nuances".

(** The dictionary [fact_check] returns. *)
Record FactCheck := {
  fc_statement : string;
  fc_verification : string;
  fc_citations : list Citation;
  fc_usage : gmap string Z;
  fc_timestamp : Timestamp
}.

(** [fact_check(self, statement, context=None)] *)
Definition fact_check (self : t) (statement : string) (context : PyVal)
    : M FactCheck :=
  let query := "Fact-check this statement: " +:+ statement in
  let query :=
    if truthy context
    then query +:+ nl +:+ nl +:+ "Context: " +:+ py_str context
    else query in
  response <- search_and_answer self query (VStr fact_check_system_message)
                (VBool true) (VBool false) VNone ∅ ;;
  LoopTime (fun now =>
    ret {| fc_statement := statement;
           fc_verification := p_content response;
           fc_citations := p_citations response;
           fc_usage := p_usage response;
           fc_timestamp := now |}).

(** The call [fact_check(prompt, **kwargs)]: [context] is the only
    option the signature accepts. *)
Definition fact_check_kw (self : t) (prompt : string) (kwargs : Kwargs)
    : M FactCheck :=
  if decide (dom (delete "context" kwargs) = ∅)
  then fact_check self prompt (default VNone (kwargs !! "context"))
  else raise (TypeError "PerplexityClient.fact_check() got an unexpected keyword argument").

End PerplexityClient.

(** ** The API manager ([api_manager.py]) *)

(** [APIType] *)
Inductive APIType : Type := REASONING | SEARCH | GENERATION | ANALYSIS | FACT_CHECK.

#[global] Instance APIType_eq_dec : EqDecision APIType.
Proof. solve_decision. Defined.

#[global] Instance APIType_countable : Countable APIType.
Proof.
  refine (inj_countable'
    (fun c => match c with
              | REASONING => 0%nat | SEARCH => 1%nat | GENERATION => 2%nat
              | ANALYSIS => 3%nat | FACT_CHECK => 4%nat end)
    (fun n => match n with
              | 0%nat => REASONING | 1%nat => SEARCH | 2%nat => GENERATION
              | 3%nat => ANALYSIS | _ => FACT_CHECK end) _).
  by intros [].
Defined.

(** [request_type.value] *)
Definition APIType_value (c : APIType) : string :=
  match c with
  | REASONING => "reasoning"
  | SEARCH => "search"
  | GENERATION => "generation"
  | ANALYSIS => "analysis"
  | FACT_CHECK => "fact_check"
  end.

(** [str(request_type)], as an f-string prints a member. *)
Definition APIType_str (c : APIType) : string :=
  match c with
  | REASONING => "APIType.REASONING"
  | SEARCH => "APIType.SEARCH"
  | GENERATION => "APIType.GENERATION"
  | ANALYSIS => "APIType.ANALYSIS"
  | FACT_CHECK => "APIType.FACT_CHECK"
  end.

(** [x in xs] for a list of members. *)
Definition APIType_in (c : APIType) (cs : list APIType) : bool := bool_decide (c ∈ cs).

(** An entry of the routing table: one of the manager's two clients, or
    an object of another class (the last branch of [_execute_request]). *)
Inductive Client : Type :=
| gemini_client
| perplexity_client
| other_client (type_name : string).

(** A value of the [metadata] dictionary. *)
Inductive MetaVal : Type :=
| MStr (s : string)
| MSafety (ratings : option (list SafetyRating))
| MTime (t : Timestamp)
| MLabels (labels : list string).

(** [APIResponse] *)
Record APIResponse := {
  content : string;
  source : string;
  usage : gmap string Z;
  metadata : gmap string MetaVal;
  citations : option (list Citation)
}.

Module APIManager.

(** The attributes of the manager that a request reads. *)
Record t := {
  gemini_model : string;
  perplexity : PerplexityClient.t;
  api_routing : gmap APIType (list Client)
}.

(** [__init__]: the routing table as the constructor fills it. *)
Definition init (gemini_model : string) (perplexity : PerplexityClient.t) : t :=
  {| gemini_model := gemini_model;
     perplexity := perplexity;
     api_routing :=
       {[ REASONING := [gemini_client];
          SEARCH := [perplexity_client];
          GENERATION := [gemini_client];
          ANALYSIS := [gemini_client; perplexity_client];
          FACT_CHECK := [perplexity_client] ]} |}.

Definition _execute_gemini_request (self : t) (request_type : APIType)
    (prompt : string) (kwargs : Kwargs) : M APIResponse :=
  if APIType_in request_type [REASONING; GENERATION; ANALYSIS]
  then
    response <- GeminiClient.generate_text_kw (gemini_model self) prompt kwargs ;;
    ret {| content := g_content response;
           source := "gemini";
           usage := g_usage response;
           metadata :=
             {[ "model" := MStr (g_model response);
                "finish_reason" := MStr (g_finish_reason response);
                "safety_ratings" := MSafety (g_safety_ratings response) ]};
           citations := None |}
  else
    raise (ValueError
             ("Gemini API does not support request type: " +:+ APIType_str request_type)).

Definition _execute_perplexity_request (self : t) (request_type : APIType)
    (prompt : string) (kwargs : Kwargs) : M APIResponse :=
  if APIType_in request_type [SEARCH; ANALYSIS; FACT_CHECK]
  then
    if decide (request_type = FACT_CHECK)
    then
      result <- PerplexityClient.fact_check_kw (perplexity self) prompt kwargs ;;
      ret {| content := PerplexityClient.fc_verification result;
             source := "perplexity";
             usage := PerplexityClient.fc_usage result;
             metadata := {[ "timestamp" := MTime (PerplexityClient.fc_timestamp result) ]};
             citations := Some (PerplexityClient.fc_citations result) |}
    else
      response <- PerplexityClient.search_and_answer_kw (perplexity self) prompt kwargs ;;
      ret {| content := p_content response;
             source := "perplexity";
             usage := p_usage response;
             metadata :=
               {[ "model" := MStr (p_model response);
                  "finish_reason" := MStr (p_finish_reason response) ]};
             citations := Some (p_citations response) |}
  else
    raise (ValueError
             ("Perplexity API does not support request type: " +:+ APIType_str request_type)).

Definition _execute_request (self : t) (api_client : Client)
    (request_type : APIType) (prompt : string) (kwargs : Kwargs) : M APIResponse :=
  match api_client with
  | gemini_client => _execute_gemini_request self request_type prompt kwargs
  | perplexity_client => _execute_perplexity_request self request_type prompt kwargs
  | other_client type_name =>
      raise (ValueError ("Unknown API client type: <class '" +:+ type_name +:+ "'>"))
  end.

(** The call [self._execute_request(api_client, request_type, prompt,
    **kwargs)] as [route_request] writes it: an option called
    [api_client] collides with the positional argument, and Python
    raises before the body runs.  (The options cannot hold [request_type]
    or [prompt]: such a call of [route_request] itself is rejected.) *)
Definition _execute_request_kw (self : t) (api_client : Client)
    (request_type : APIType) (prompt : string) (kwargs : Kwargs) : M APIResponse :=
  match kwargs !! "api_client" with
  | Some _ =>
      raise (TypeError
               "APIManager._execute_request() got multiple values for argument 'api_client'")
  | None => _execute_request self api_client request_type prompt kwargs
  end.

(** The [for fallback_api in available_apis[1:]] loop of
    [route_request], followed by its [raise e]: [e] is the error of the
    primary. *)
Fixpoint try_fallbacks (self : t) (fallbacks : list Client)
    (request_type : APIType) (prompt : string) (kwargs : Kwargs) (e : exn)
    : M APIResponse :=
  match fallbacks with
  | [] => raise e
  | fallback_api :: rest =>
      try_except (_execute_request_kw self fallback_api request_type prompt kwargs)
        (fun fallback_error => try_fallbacks self rest request_type prompt kwargs e)
  end.

Definition route_request (self : t) (request_type : APIType)
    (prompt : string) (kwargs : Kwargs) : M APIResponse :=
  let available_apis := default [] (api_routing self !! request_type) in
  match available_apis with
  | [] =>
      raise (ValueError
               ("No APIs available for request type: " +:+ APIType_str request_type))
  | primary_api :: fallbacks =>
      try_except (_execute_request_kw self primary_api request_type prompt kwargs)
        (fun e => try_fallbacks self fallbacks request_type prompt kwargs e)
  end.

(** The call [self.route_request(request_type, prompt, **kwargs)] as
    [hybrid_request] writes it: an option called [request_type] collides
    with the positional argument, and Python raises when the call is
    made, before there is a coroutine. *)
Definition route_request_call (self : t) (request_type : APIType)
    (prompt : string) (kwargs : Kwargs) : exn + M APIResponse :=
  match kwargs !! "request_type" with
  | Some _ =>
      inl (TypeError
             "APIManager.route_request() got multiple values for argument 'request_type'")
  | None => inr (route_request self request_type prompt kwargs)
  end.

(** The [tasks] list that [hybrid_request] builds before it gathers. *)
Definition hybrid_tasks (self : t) (prompt : string)
    (use_search use_reasoning : bool) (kwargs : Kwargs) : exn + list (M APIResponse) :=
  let tasks : list (M APIResponse) := [] in
  match
    (if use_search
     then
       match route_request_call self SEARCH prompt kwargs with
       | inl e => inl e
       | inr task => inr (tasks ++ [task])%list
       end
     else inr tasks)
  with
  | inl e => inl e
  | inr tasks =>
      if use_reasoning
      then
        match route_request_call self REASONING prompt kwargs with
        | inl e => inl e
        | inr task => inr (tasks ++ [task])%list
        end
      else inr tasks
  end.

(** [hybrid_request(self, prompt, use_search=True, use_reasoning=True,
    **kwargs)]; [sched] is the order in which the event loop resumes
    the gathered tasks. *)
Definition hybrid_request (self : t) (sched : list nat) (prompt : string)
    (use_search use_reasoning : bool) (kwargs : Kwargs)
    : M (list (string * APIResponse)) :=
  let results : list (string * APIResponse) := [] in
  match hybrid_tasks self prompt use_search use_reasoning kwargs with
  | inl e => raise e
  | inr tasks =>
      pbind (gather sched tasks) (fun responses =>
        let results :=
          if use_search && bool_decide (0 < length responses)%nat
          then
            match responses !! 0%nat with
            | Some (inr response) => dict_set "search" response results
            | _ => results
            end
          else results in
        let results :=
          if use_reasoning
          then
            let reasoning_index := if use_search then 1%nat else 0%nat in
            if bool_decide (reasoning_index < length responses)%nat
            then
              match responses !! reasoning_index with
              | Some (inr response) => dict_set "reasoning" response results
              | _ => results
              end
            else results
          else results in
        ret results)
  end.

Definition default_synthesis_prompt : string :=
  "Synthesize the following information into a comprehensive response:".

Definition synthesis_system_instruction : string :=
  "You are an expert at synthesizing information from multiple sources. Provide a comprehensive, well-structured response that combines the best insights from all sources.".

Definition zero_usage : gmap string Z :=
  {[ "prompt_tokens" := 0; "completion_tokens" := 0; "total_tokens" := 0 ]}.

(** [for key in total_usage: total_usage[key] += usage.get(key, 0)] *)
Definition aggregate_usage (total_usage : gmap string Z) (response_usage : gmap string Z)
    : gmap string Z :=
  map_imap (fun key v => Some (v + usage_get response_usage key)) total_usage.

(** One turn of [for source, response in responses.items()]. *)
Definition collect (acc : list string * list Citation * gmap string Z)
    (item : string * APIResponse) : list string * list Citation * gmap string Z :=
  let '(combined_content, all_citations, total_usage) := acc in
  let '(source, response) := item in
  ((combined_content ++ ["From " +:+ source +:+ ":" +:+ nl +:+ content response])%list,
   match citations response with
   | Some (c :: cs) => (all_citations ++ c :: cs)%list
   | Some [] | None => all_citations
   end,
   aggregate_usage total_usage (usage response)).

(** [total_usage[key] += synthesis_usage[key]] *)
Definition add_item (total_usage : gmap string Z) (key : string)
    (synthesis_usage : gmap string Z) : M (gmap string Z) :=
  match usage_getitem total_usage key with
  | inl e => raise e
  | inr a =>
      match usage_getitem synthesis_usage key with
      | inl e => raise e
      | inr b => ret (<[key := a + b]> total_usage)
      end
  end.

(** [synthesize_responses(self, responses, synthesis_prompt=None)] *)
Definition synthesize_responses (self : t) (responses : list (string * APIResponse))
    (synthesis_prompt : option string) : M APIResponse :=
  let synthesis_prompt :=
    match synthesis_prompt with
    | Some s => if String.eqb s "" then default_synthesis_prompt else s
    | None => default_synthesis_prompt
    end in
  let '(combined_content, all_citations, total_usage) :=
    fold_left collect responses ([], [], zero_usage) in
  let full_prompt :=
    synthesis_prompt +:+ nl +:+ nl +:+ join (nl +:+ nl) combined_content in
  synthesis_response <-
    GeminiClient.generate_text (gemini_model self) full_prompt
      (VStr synthesis_system_instruction) ∅ ;;
  total_usage <- add_item total_usage "prompt_tokens" (g_usage synthesis_response) ;;
  total_usage <- add_item total_usage "completion_tokens" (g_usage synthesis_response) ;;
  total_usage <- add_item total_usage "total_tokens" (g_usage synthesis_response) ;;
  ret {| content := g_content synthesis_response;
         source := "synthesized";
         usage := total_usage;
         metadata :=
           {[ "sources" := MLabels (map fst responses);
              "synthesis_model" := MStr (g_model synthesis_response) ]};
         citations := Some all_citations |}.

(** The [full_prompt] that [synthesize_responses] builds, as a function
    of its arguments. *)
Definition synthesis_full_prompt (responses : list (string * APIResponse))
    (synthesis_prompt : option string) : string :=
  let synthesis_prompt :=
    match synthesis_prompt with
    | Some s => if String.eqb s "" then default_synthesis_prompt else s
    | None => default_synthesis_prompt
    end in
  synthesis_prompt +:+ nl +:+ nl +:+
  join (nl +:+ nl) (fold_left collect responses ([], [], zero_usage)).1.1.

End APIManager.

(** ** Running the candidates of a category one after the other *)

Section Attempts.
Context {World : Type}.
Variable gemini_api : string -> Kwargs -> World -> (exn + GenerateContentResponse) * World.
Variable perplexity_api : PplxPayload -> World -> (exn + PplxData) * World.
Variable clock : World -> Timestamp * World.

(** [failures self cs ...  w] is [Some (errors, w', events)] when the
    calls of the candidates [cs], made in this order from the world [w],
    all raise: the errors in order, the world and the events after the
    last of them.  It is [None] as soon as one call returns. *)
Fixpoint failures (self : APIManager.t) (cs : list Client) (request_type : APIType)
    (prompt : string) (kwargs : Kwargs) (w : World)
    : option (list exn * World * list Event) :=
  match cs with
  | [] => Some ([], w, [])
  | c :: rest =>
      match run gemini_api perplexity_api clock
              (APIManager._execute_request_kw self c request_type prompt kwargs) w with
      | (inl e, w1, ev1) =>
          match failures self rest request_type prompt kwargs w1 with
          | Some (es, w2, ev2) => Some (e :: es, w2, (ev1 ++ ev2)%list)
          | None => None
          end
      | (inr _, _, _) => None
      end
  end.
End Attempts.

(** The name under which a client labels its responses. *)
Definition Client_source (c : Client) : string :=
  match c with
  | gemini_client => "gemini"
  | perplexity_client => "perplexity"
  | other_client type_name => type_name
  end.

(** The three keys of a usage dictionary. *)
Definition usage_keys : list string := ["prompt_tokens"; "completion_tokens"; "total_tokens"].

(** The sum of one usage field over the input responses of a synthesis;
    a response whose usage lacks the field counts 0. *)
Definition usage_sum (key : string) (responses : list (string * APIResponse)) : Z :=
  foldr (fun item acc => usage_get (usage item.2) key + acc) 0 responses.

(** The citation sequences of the input responses, one after the other in
    the order of the inputs; a response without citations gives none. *)
Definition input_citations (responses : list (string * APIResponse)) : list Citation :=
  flat_map (fun item => default [] (citations item.2)) responses.

(** An error of a dedicated class that wraps [first] as its cause: how
    the specification words the error of a category whose candidates all
    failed.  No code path builds such an object. *)
Definition spec_AllCandidatesFailedError (first : exn) (e : exn) : Prop :=
  exn_class e = "AllCandidatesFailedError" /\ exn_cause e = Some first.

(** ** A scripted outside world, for concrete scenarios

    Each service answers from a list of prepared replies, one per call;
    the clock counts up. *)

Module Scripted.

Record World := {
  gemini_replies : list (exn + GenerateContentResponse);
  perplexity_replies : list (exn + PplxData);
  now : Z
}.

Definition exhausted : exn := Exn "RuntimeError" "no scripted reply left" None.

Definition gemini_api (full_prompt : string) (kwargs : Kwargs) (w : World)
    : (exn + GenerateContentResponse) * World :=
  match gemini_replies w with
  | r :: rest =>
      (r, {| gemini_replies := rest;
             perplexity_replies := perplexity_replies w;
             now := now w |})
  | [] => (inl exhausted, w)
  end.

Definition perplexity_api (payload : PplxPayload) (w : World)
    : (exn + PplxData) * World :=
  match perplexity_replies w with
  | r :: rest =>
      (r, {| gemini_replies := gemini_replies w;
             perplexity_replies := rest;
             now := now w |})
  | [] => (inl exhausted, w)
  end.

Definition clock (w : World) : Timestamp * World :=
  ({| ts_ticks := now w |},
   {| gemini_replies := gemini_replies w;
      perplexity_replies := perplexity_replies w;
      now := now w + 1 |}).

Definition exec {A} (p : Prog A) (w : World) : A * World * list Event :=
  run gemini_api perplexity_api clock p w.

(** The manager as [__init__] builds it. *)
Definition manager : APIManager.t :=
  APIManager.init "gemini-pro"
    {| PerplexityClient.model_name := "sonar";
       PerplexityClient.temperature := VObj "0.2" true;
       PerplexityClient.max_tokens := VObj "1024" true |}.

(** A manager whose table sends a category to both clients, to one
    that cannot serve it, or nowhere. *)
Definition manager_with (table : gmap APIType (list Client)) : APIManager.t :=
  {| APIManager.gemini_model := APIManager.gemini_model manager;
     APIManager.perplexity := APIManager.perplexity manager;
     APIManager.api_routing := table |}.

Definition quota_error : exn := Exn "ResourceExhausted" "429 quota exceeded" None.
Definition http_error : exn := Exn "HTTPStatusError" "503 Service Unavailable" None.

Definition gemini_ok (text : string) (p c t : Z) : GenerateContentResponse :=
  {| gc_text := Some text;
     gc_usage_metadata :=
       Some {| prompt_token_count := p; candidates_token_count := c; total_token_count := t |};
     gc_candidates := [ {| cand_finish_reason := "STOP"; cand_safety_ratings := [] |} ] |}.

Definition perplexity_ok (text : string) (cites : option (list Citation))
    (u : option (gmap string Z)) : PplxData :=
  {| d_choices :=
       Some [ {| ch_message := Some (Some text); ch_finish_reason := Some "stop" |} ];
     d_citations := cites;
     d_usage := u |}.

Definition world (g : list (exn + GenerateContentResponse))
    (p : list (exn + PplxData)) : World :=
  {| gemini_replies := g; perplexity_replies := p; now := 0 |}.

(** Both providers down. *)
Definition both_down : World := world [inl quota_error] [inl http_error].

(** Gemini down, Perplexity answering, without a usage block. *)
Definition gemini_down : World :=
  world [inl quota_error] [inr (perplexity_ok "found" None None)].

(** Gemini down once, then answering; Perplexity answering. *)
Definition gemini_down_once : World :=
  world [inl quota_error; inr (gemini_ok "late" 1 1 2)]
        [inr (perplexity_ok "found" None None)].

(** Gemini answering without usage metadata. *)
Definition gemini_no_metadata : World :=
  world [inr {| gc_text := Some "ok"; gc_usage_metadata := None; gc_candidates := [] |}] [].

(** A table that lists three candidates for ANALYSIS. *)
Definition three_candidates : gmap APIType (list Client) :=
  {[ ANALYSIS := [gemini_client; perplexity_client; gemini_client] ]}.

(** A table that lists Gemini, which does not serve SEARCH, before
    Perplexity. *)
Definition search_via_both : gmap APIType (list Client) :=
  {[ SEARCH := [gemini_client; perplexity_client] ]}.

Definition c1 : Citation := {[ "url" := "https://example.org/1" ]}.
Definition c2 : Citation := {[ "url" := "https://example.org/2" ]}.

(** The two inputs of a synthesis: usage 10/5/15 with citations [c1],
    and usage 20/10/30 with citations [c1; c2]. *)
Definition search_response : APIResponse :=
  {| content := "found";
     source := "perplexity";
     usage := {[ "prompt_tokens" := 10; "completion_tokens" := 5; "total_tokens" := 15 ]};
     metadata := ∅;
     citations := Some [c1] |}.

Definition reasoning_response : APIResponse :=
  {| content := "thought";
     source := "gemini";
     usage := {[ "prompt_tokens" := 20; "completion_tokens" := 10; "total_tokens" := 30 ]};
     metadata := ∅;
     citations := Some [c1; c2] |}.

Definition inputs : list (string * APIResponse) :=
  [("search", search_response); ("reasoning", reasoning_response)].

(** The synthesis call answers and reports usage 3/2/5. *)
Definition synthesis_ok : World := world [inr (gemini_ok "merged" 3 2 5)] [].

End Scripted.

(** ** More of the Perplexity client *)

Module Research.

Definition research_system_message : string :=
  "You are a research assistant. Provide comprehensive, well-structured research with:"
  +:+ nl +:+
  "1. Executive summary" +:+ nl +:+
  "2. Key findings" +:+ nl +:+
  "3. Current trends" +:+ nl +:+
  "4. Supporting evidence with citations" +:+ nl +:+
  "5. Implications and insights" +:+ nl +:+
  "6. Recommendations for further research".

(** The [research_query] that [research_topic] builds. *)
Definition research_query (topic : string) (focus_areas : option (list string))
    (time_range : option string) : string :=
  let query_parts := ["Research and analyze: " +:+ topic] in
  let query_parts :=
    match focus_areas with
    | Some (a :: areas) =>
        (query_parts ++ ["Focus on: " +:+ join ", " (a :: areas)])%list
    | Some [] | None => query_parts
    end in
  let query_parts :=
    match time_range with
    | Some t =>
        if String.eqb t "" then query_parts
        else (query_parts ++ ["Time range: " +:+ t])%list
    | None => query_parts
    end in
  let query_parts :=
    (query_parts
     ++ ["Provide comprehensive analysis with key findings, trends, and insights."])%list in
  join " " query_parts.

(** The dictionary [research_topic] returns. *)
Record ResearchResult := {
  rr_topic : string;
  rr_analysis : string;
  rr_citations : list Citation;
  rr_usage : gmap string Z;
  rr_timestamp : Timestamp
}.

(** [research_topic(self, topic, focus_areas=None, time_range=None)] *)
Definition research_topic (self : PerplexityClient.t) (topic : string)
    (focus_areas : option (list string)) (time_range : option string)
    : M ResearchResult :=
  let research_query := research_query topic focus_areas time_range in
  response <- PerplexityClient.search_and_answer self research_query
                (VStr research_system_message) (VBool true) (VBool false) VNone
                {[ "max_tokens" := VObj "4096" true ]} ;;
  LoopTime (fun now =>
    ret {| rr_topic := topic;
           rr_analysis := p_content response;
           rr_citations := p_citations response;
           rr_usage := p_usage response;
           rr_timestamp := now |}).

(** The value that the JSON body carries under ["max_tokens"]: in the
    dictionary literal of [search_and_answer] the options are spliced in
    after the client's own entry and replace it. *)
Definition sent_max_tokens (payload : PplxPayload) : PyVal :=
  default (pl_max_tokens payload) (pl_extra payload !! "max_tokens").

End Research.

(** ** The streaming search ([search_stream]) *)

(** A decoded JSON value, as [json.loads] hands it back. *)
#[warnings="-register-all"]
Inductive Json : Type :=
| JNull
| JBool (b : bool)
| JInt (n : Z)
| JFloat (repr : string) (nonzero : bool)
| JStr (s : string)
| JList (items : list Json)
| JObj (items : list (string * Json)).

Module Stream.

(** [bool(v)] *)
Definition json_truthy (v : Json) : bool :=
  match v with
  | JNull => false
  | JBool b => b
  | JInt n => negb (n =? 0)%Z
  | JFloat _ nonzero => nonzero
  | JStr s => negb (String.eqb s "")
  | JList items => match items with [] => false | _ => true end
  | JObj items => match items with [] => false | _ => true end
  end.

(** [type(v).__name__] *)
Definition json_type_name (v : Json) : string :=
  match v with
  | JNull => "NoneType"
  | JBool _ => "bool"
  | JInt _ => "int"
  | JFloat _ _ => "float"
  | JStr _ => "str"
  | JList _ => "list"
  | JObj _ => "dict"
  end.

(** [needle in s] for two strings. *)
Fixpoint has_substring (needle s : string) : bool :=
  String.prefix needle s
  || match s with
     | EmptyString => false
     | String _ s' => has_substring needle s'
     end.

Definition is_json_str (key : string) (v : Json) : bool :=
  match v with
  | JStr s => String.eqb s key
  | _ => false
  end.

(** [key in v] for a string [key]: a key of a dictionary, a substring of
    a string, an element of a list; a [TypeError] for the rest. *)
Definition py_contains (key : string) (v : Json) : exn + bool :=
  match v with
  | JObj items => inr (existsb (fun item => String.eqb item.1 key) items)
  | JStr s => inr (has_substring key s)
  | JList items => inr (existsb (is_json_str key) items)
  | _ => inl (TypeError ("argument of type '" +:+ json_type_name v +:+ "' is not iterable"))
  end.

(** [v[key]] for a string [key]. *)
Definition py_getitem (v : Json) (key : string) : exn + Json :=
  match v with
  | JObj items =>
      match dict_get key items with
      | Some x => inr x
      | None => inl (KeyError key)
      end
  | JStr _ => inl (TypeError "string indices must be integers")
  | JList _ => inl (TypeError "list indices must be integers or slices, not str")
  | _ => inl (TypeError ("'" +:+ json_type_name v +:+ "' object is not subscriptable"))
  end.

(** [v[0]] *)
Definition py_getitem_0 (v : Json) : exn + Json :=
  match v with
  | JList (x :: _) => inr x
  | JList [] => inl (IndexError "list index out of range")
  | JStr (String c _) => inr (JStr (String c EmptyString))
  | JStr EmptyString => inl (IndexError "string index out of range")
  | JObj _ => inl (KeyError "0")
  | _ => inl (TypeError ("'" +:+ json_type_name v +:+ "' object is not subscriptable"))
  end.

(** [v.get(key, {})] *)
Definition py_get (v : Json) (key : string) : exn + Json :=
  match v with
  | JObj items => inr (default (JObj []) (dict_get key items))
  | _ =>
      inl (Exn "AttributeError"
             ("'" +:+ json_type_name v +:+ "' object has no attribute 'get'") None)
  end.

(** [s[n:]] *)
Fixpoint drop_chars (n : nat) (s : string) : string :=
  match n, s with
  | O, _ => s
  | S n', String _ s' => drop_chars n' s'
  | S _, EmptyString => EmptyString
  end.

(** What one line of the response does to the generator. *)
Inductive LineStep : Type :=
| Skip
| Yield (v : Json)
| Done
| Raise (e : exn).

Section Lines.
(** The two library functions a line goes through: [str.strip] and
    [json.loads] ([None] for a [JSONDecodeError]). *)
Variable py_strip : string -> string.
Variable json_loads : string -> option Json.

(** The body of the [async for line in response.aiter_lines()] loop. *)
Definition process_line (line : string) : LineStep :=
  if String.prefix "data: " line
  then
    let data_str := drop_chars 6 line in
    if String.eqb (py_strip data_str) "[DONE]"
    then Done
    else
      match json_loads data_str with
      | None => Skip
      | Some data =>
          match py_contains "choices" data with
          | inl e => Raise e
          | inr false => Skip
          | inr true =>
              match py_getitem data "choices" with
              | inl e => Raise e
              | inr choices =>
                  if json_truthy choices
                  then
                    match py_getitem_0 choices with
                    | inl e => Raise e
                    | inr first =>
                        match py_get first "delta" with
                        | inl e => Raise e
                        | inr delta =>
                            match py_contains "content" delta with
                            | inl e => Raise e
                            | inr false => Skip
                            | inr true =>
                                match py_getitem delta "content" with
                                | inl e => Raise e
                                | inr v => Yield v
                                end
                            end
                        end
                    end
                  else Skip
              end
          end
      end
  else Skip.

(** The loop over the lines of the response.  [failure] is the error
    with which the transport ends the iteration, if it does.  The result
    is what the generator yields, in order, and the error it raises at
    the end, if any. *)
Fixpoint consume (lines : list string) (failure : option exn)
    : list Json * option exn :=
  match lines with
  | [] => ([], failure)
  | line :: rest =>
      match process_line line with
      | Skip => consume rest failure
      | Yield v => let '(yielded, raised) := consume rest failure in (v :: yielded, raised)
      | Done => ([], None)
      | Raise e => ([], Some e)
      end
  end.

(** The payload of the streaming POST; [sp_extra] is the [**kwargs]
    spliced in last. *)
Record StreamPayload := {
  sp_model : string;
  sp_messages : list (string * PyVal);
  sp_temperature : PyVal;
  sp_max_tokens : PyVal;
  sp_stream : PyVal;
  sp_extra : Kwargs
}.

(** What the server does with a streaming POST: it refuses (transport
    error or error status), or sends lines and possibly breaks off with
    an error. *)
Definition StreamReply : Type := exn + (list string * option exn).

(** [search_stream(self, query, system_message=None, **kwargs)], run
    to its end by a consumer that takes every item. *)
Definition search_stream (self : PerplexityClient.t) (upstream : StreamPayload -> StreamReply)
    (query : string) (system_message : PyVal) (kwargs : Kwargs)
    : list Json * option exn :=
  let messages :=
    ((if truthy system_message then [("system", system_message)] else [])
     ++ [("user", VStr query)])%list in
  let payload :=
    {| sp_model := PerplexityClient.model_name self;
       sp_messages := messages;
       sp_temperature := PerplexityClient.temperature self;
       sp_max_tokens := PerplexityClient.max_tokens self;
       sp_stream := VBool true;
       sp_extra := kwargs |} in
  match upstream payload with
  | inl e => ([], Some e)
  | inr (lines, failure) => consume lines failure
  end.

(** A line the loop passes over: no [data: ] prefix, or a payload that
    is not the end mark and does not decode. *)
Definition ignorable (line : string) : bool :=
  negb (String.prefix "data: " line)
  || (negb (String.eqb (py_strip (drop_chars 6 line)) "[DONE]")
      && match json_loads (drop_chars 6 line) with None => true | Some _ => false end).

End Lines.

End Stream.

(** ** Events and independent providers *)

(** A request sent to a provider (the clock is no request). *)
Definition is_request (ev : Event) : bool :=
  match ev with
  | EvGemini _ _ | EvPerplexity _ => true
  | EvClock => false
  end.

Definition is_gemini_event (ev : Event) : bool :=
  match ev with
  | EvGemini _ _ => true
  | _ => false
  end.

(** Two providers that share no state: the world is a pair, and each
    service reads and changes its own half. *)
Definition gemini_alone {Wg Wp : Type}
    (g : string -> Kwargs -> Wg -> (exn + GenerateContentResponse) * Wg)
    (full_prompt : string) (kwargs : Kwargs) (w : Wg * Wp)
    : (exn + GenerateContentResponse) * (Wg * Wp) :=
  let '(r, wg) := g full_prompt kwargs w.1 in (r, (wg, w.2)).

Definition perplexity_alone {Wg Wp : Type}
    (p : PplxPayload -> Wp -> (exn + PplxData) * Wp)
    (payload : PplxPayload) (w : Wg * Wp) : (exn + PplxData) * (Wg * Wp) :=
  let '(r, wp) := p payload w.2 in (r, (w.1, wp)).

(** A coroutine that awaits the outside at most once: it returns at
    once, or it sends one POST (one Gemini call) and returns on the
    answer. *)
Definition one_post {A} (t : Prog A) : Prop :=
  (exists a, t = Ret a)
  \/ (exists payload k, t = Post payload k /\ forall r, exists a, k r = Ret a).

Definition one_generate {A} (t : Prog A) : Prop :=
  (exists a, t = Ret a)
  \/ (exists full_prompt kwargs k,
        t = GenerateContent full_prompt kwargs k /\ forall r, exists a, k r = Ret a).

(** The entry of the combined block of a synthesis for one input. *)
Definition labelled (item : string * APIResponse) : string :=
  "From " +:+ item.1 +:+ ":" +:+ nl +:+ content item.2.

(** ** More concrete scenarios *)

Module Demo.

(** [str.strip] for text with ASCII blanks only. *)
Definition is_blank (c : Ascii.ascii) : bool :=
  let n := Ascii.nat_of_ascii c in
  (n =? 32)%nat || ((9 <=? n)%nat && (n <=? 13)%nat).

Fixpoint lstrip (s : string) : string :=
  match s with
  | String c s' => if is_blank c then lstrip s' else s
  | EmptyString => EmptyString
  end.

Fixpoint rstrip (s : string) : string :=
  match s with
  | String c s' =>
      match rstrip s' with
      | EmptyString => if is_blank c then EmptyString else String c EmptyString
      | t => String c t
      end
  | EmptyString => EmptyString
  end.

Definition strip (s : string) : string := rstrip (lstrip s).

(** A chunk of a stream that carries [text]. *)
Definition chunk (text : string) : Json :=
  JObj [("id", JStr "c"); ("choices", JList [JObj [("delta", JObj [("content", JStr text)])]])].

(** A decoder that knows four payloads: two chunks, a number and a chunk
    without choices; every other text does not decode. *)
Definition loads (s : string) : option Json :=
  if String.eqb s "chunk-1" then Some (chunk "Hel")
  else if String.eqb s "chunk-2" then Some (chunk "lo")
  else if String.eqb s "7" then Some (JInt 7)
  else if String.eqb s "ping" then Some (JObj [("id", JStr "c")])
  else None.

(** A stream with a comment line, an undecodable line, the end mark and
    a line after it. *)
Definition lines : list string :=
  ["data: chunk-1"; ": keep-alive"; "data: {broken"; "data: chunk-2";
   "data:  [DONE] "; "data: chunk-1"].

Definition client : PerplexityClient.t :=
  {| PerplexityClient.model_name := "sonar";
     PerplexityClient.temperature := VObj "0.2" true;
     PerplexityClient.max_tokens := VObj "1024" true |}.

(** Scripted providers that share no state: each answers from its own
    list of prepared replies. *)
Definition gemini (full_prompt : string) (kwargs : Kwargs)
    (replies : list (exn + GenerateContentResponse))
    : (exn + GenerateContentResponse) * list (exn + GenerateContentResponse) :=
  match replies with
  | r :: rest => (r, rest)
  | [] => (inl Scripted.exhausted, [])
  end.

Definition perplexity (payload : PplxPayload) (replies : list (exn + PplxData))
    : (exn + PplxData) * list (exn + PplxData) :=
  match replies with
  | r :: rest => (r, rest)
  | [] => (inl Scripted.exhausted, [])
  end.

Definition no_clock (w : list (exn + GenerateContentResponse) * list (exn + PplxData))
    : Timestamp * (list (exn + GenerateContentResponse) * list (exn + PplxData)) :=
  ({| ts_ticks := 0 |}, w).

Definition exec_alone {A} (p : Prog A)
    (w : list (exn + GenerateContentResponse) * list (exn + PplxData)) :=
  run (gemini_alone gemini) (perplexity_alone perplexity) no_clock p w.

End Demo.

(** * Properties *)

(** Case analysis on a key known to be one of [usage_keys]: one goal per
    key. *)
Ltac usage_key_cases H :=
  unfold usage_keys in H;
  repeat (apply elem_of_cons in H as [-> | H]);
  [.. | exfalso; by apply elem_of_nil in H].

(** ** Running composed coroutines *)

Section RunLemmas.
Context {World : Type}.
Variable gemini_api : string -> Kwargs -> World -> (exn + GenerateContentResponse) * World.
Variable perplexity_api : PplxPayload -> World -> (exn + PplxData) * World.
Variable clock : World -> Timestamp * World.

Local Abbreviation exec := (run gemini_api perplexity_api clock).

Lemma run_pbind {A B} (p : Prog A) (f : A -> Prog B) (w : World) :
  exec (pbind p f) w =
    let '(a, w1, ev1) := exec p w in
    let '(b, w2, ev2) := exec (f a) w1 in
    (b, w2, (ev1 ++ ev2)%list).
Proof.
  revert w. induction p as [a | fp kw k IH | pl k IH | k IH]; intros w; simpl.
  - by destruct (exec (f a) w) as [[b w2] ev2].
  - destruct (gemini_api fp kw w) as [r w1]. rewrite IH.
    destruct (exec (k r) w1) as [[a w2] ev1].
    by destruct (exec (f a) w2) as [[b w3] ev2].
  - destruct (perplexity_api pl w) as [r w1]. rewrite IH.
    destruct (exec (k r) w1) as [[a w2] ev1].
    by destruct (exec (f a) w2) as [[b w3] ev2].
  - destruct (clock w) as [t w1]. rewrite IH.
    destruct (exec (k t) w1) as [[a w2] ev1].
    by destruct (exec (f a) w2) as [[b w3] ev2].
Qed.

Lemma run_bind_raise {A B} (m : M A) (f : A -> M B) w e w1 ev1 :
  exec m w = (inl e, w1, ev1) ->
  exec (bind m f) w = (inl e, w1, ev1).
Proof.
  intros H. unfold bind. rewrite run_pbind, H. simpl. by rewrite app_nil_r.
Qed.

Lemma run_bind_ret {A B} (m : M A) (f : A -> M B) w a w1 ev1 :
  exec m w = (inr a, w1, ev1) ->
  exec (bind m f) w =
    let '(b, w2, ev2) := exec (f a) w1 in (b, w2, (ev1 ++ ev2)%list).
Proof. intros H. unfold bind. by rewrite run_pbind, H. Qed.

Lemma run_try_except_ret {A} (m : M A) (h : exn -> M A) w a w1 ev1 :
  exec m w = (inr a, w1, ev1) ->
  exec (try_except m h) w = (inr a, w1, ev1).
Proof.
  intros H. unfold try_except. rewrite run_pbind, H. simpl. by rewrite app_nil_r.
Qed.

Lemma run_try_except_raise {A} (m : M A) (h : exn -> M A) w e w1 ev1 :
  exec m w = (inl e, w1, ev1) ->
  exec (try_except m h) w =
    let '(b, w2, ev2) := exec (h e) w1 in (b, w2, (ev1 ++ ev2)%list).
Proof. intros H. unfold try_except. by rewrite run_pbind, H. Qed.

(** A successful run of [bind] splits into a successful run of each
    part. *)
Lemma run_bind_inv {A B} (m : M A) (f : A -> M B) w b w2 evs :
  exec (bind m f) w = (inr b, w2, evs) ->
  exists a w1 ev1 ev2,
    exec m w = (inr a, w1, ev1) /\ exec (f a) w1 = (inr b, w2, ev2)
    /\ evs = (ev1 ++ ev2)%list.
Proof.
  unfold bind. rewrite run_pbind.
  destruct (exec m w) as [[[e | a] w1] ev1]; simpl; [discriminate |].
  destruct (exec (f a) w1) as [[b' w2'] ev2] eqn:Hf.
  intros [= -> -> <-]. by exists a, w1, ev1, ev2.
Qed.
End RunLemmas.

(** ** The router *)

Lemma gather_nil {A} (sched : list nat) : gather sched ([] : list (Prog A)) = Ret [].
Proof. induction sched as [| i sched IH]; simpl; [done |]. exact IH. Qed.

Lemma APIType_in_false (c : APIType) (cs : list APIType) :
  c ∉ cs -> APIType_in c cs = false.
Proof. intros H. unfold APIType_in. by apply bool_decide_eq_false. Qed.

Section Router.
Context {World : Type}.
Variable gemini_api : string -> Kwargs -> World -> (exn + GenerateContentResponse) * World.
Variable perplexity_api : PplxPayload -> World -> (exn + PplxData) * World.
Variable clock : World -> Timestamp * World.

Local Abbreviation exec := (run gemini_api perplexity_api clock).

(** C8.  A category for which the routing table has no entry, or an empty
    list of candidates, makes [route_request] raise its configuration
    error, the [ValueError] "No APIs available for request type: ...",
    at once: the coroutine is that [raise] and nothing else, so a run
    leaves the world as it was and records no call to a provider. *)
Theorem route_request_no_candidates (self : APIManager.t) (request_type : APIType)
    (prompt : string) (kwargs : Kwargs) :
  APIManager.api_routing self !! request_type = None
  \/ APIManager.api_routing self !! request_type = Some [] ->
  APIManager.route_request self request_type prompt kwargs =
    raise (ValueError ("No APIs available for request type: " +:+ APIType_str request_type))
  /\ forall w : World,
       exec (APIManager.route_request self request_type prompt kwargs) w =
         (inl (ValueError ("No APIs available for request type: "
                           +:+ APIType_str request_type)), w, []).
Proof.
  intros H.
  assert (APIManager.route_request self request_type prompt kwargs =
          raise (ValueError ("No APIs available for request type: "
                             +:+ APIType_str request_type))) as Heq.
  { unfold APIManager.route_request. by destruct H as [-> | ->]. }
  split; [exact Heq |]. intros w. by rewrite Heq.
Qed.

(** C7.  Dispatching to a client a category it does not serve raises the
    unsupported-category error, the [ValueError] "... API does not
    support request type: ...", immediately: the coroutine is that
    [raise] alone, so no network call is made, nothing is attempted a
    second time, and a run records no event.  The Gemini client serves
    REASONING, GENERATION and ANALYSIS; the Perplexity client serves
    SEARCH, ANALYSIS and FACT_CHECK. *)
Theorem unsupported_category_raises_immediately (self : APIManager.t)
    (request_type : APIType) (prompt : string) (kwargs : Kwargs) :
  (request_type ∉ [REASONING; GENERATION; ANALYSIS] ->
     APIManager._execute_request self gemini_client request_type prompt kwargs =
       raise (ValueError ("Gemini API does not support request type: "
                          +:+ APIType_str request_type))
     /\ forall w : World,
          exec (APIManager._execute_request self gemini_client request_type prompt kwargs) w =
            (inl (ValueError ("Gemini API does not support request type: "
                              +:+ APIType_str request_type)), w, []))
  /\ (request_type ∉ [SEARCH; ANALYSIS; FACT_CHECK] ->
        APIManager._execute_request self perplexity_client request_type prompt kwargs =
          raise (ValueError ("Perplexity API does not support request type: "
                             +:+ APIType_str request_type))
        /\ forall w : World,
             exec (APIManager._execute_request self perplexity_client request_type
                     prompt kwargs) w =
               (inl (ValueError ("Perplexity API does not support request type: "
                                 +:+ APIType_str request_type)), w, [])).
Proof.
  split; intros Hnot.
  - assert (APIManager._execute_request self gemini_client request_type prompt kwargs =
            raise (ValueError ("Gemini API does not support request type: "
                               +:+ APIType_str request_type))) as Heq.
    { simpl. unfold APIManager._execute_gemini_request.
      by rewrite (APIType_in_false _ _ Hnot). }
    split; [exact Heq |]. intros w. by rewrite Heq.
  - assert (APIManager._execute_request self perplexity_client request_type prompt kwargs =
            raise (ValueError ("Perplexity API does not support request type: "
                               +:+ APIType_str request_type))) as Heq.
    { simpl. unfold APIManager._execute_perplexity_request.
      by rewrite (APIType_in_false _ _ Hnot). }
    split; [exact Heq |]. intros w. by rewrite Heq.
Qed.

(** C10.  With [use_search] and [use_reasoning] both false,
    [hybrid_request] gathers no task: whatever the scheduling, the
    coroutine is the plain return of the empty mapping; no
    [route_request] is issued, no provider is called, nothing is
    raised. *)
Theorem hybrid_request_nothing_requested (self : APIManager.t) (sched : list nat)
    (prompt : string) (kwargs : Kwargs) :
  APIManager.hybrid_tasks self prompt false false kwargs = inr []
  /\ APIManager.hybrid_request self sched prompt false false kwargs = ret []
  /\ forall w : World,
       exec (APIManager.hybrid_request self sched prompt false false kwargs) w =
         (inr [], w, []).
Proof.
  assert (APIManager.hybrid_request self sched prompt false false kwargs = ret []) as Heq.
  { unfold APIManager.hybrid_request, APIManager.hybrid_tasks.
    simpl. by rewrite gather_nil. }
  split; [done |]. split; [exact Heq |]. intros w. by rewrite Heq.
Qed.

Local Abbreviation all_fail := (failures gemini_api perplexity_api clock).

(** The fallback loop when every remaining candidate raises: the error
    kept from the primary comes out. *)
Lemma try_fallbacks_all_fail (self : APIManager.t) (fallbacks : list Client)
    (request_type : APIType) (prompt : string) (kwargs : Kwargs) (e : exn)
    (w : World) es w' evs :
  all_fail self fallbacks request_type prompt kwargs w = Some (es, w', evs) ->
  exec (APIManager.try_fallbacks self fallbacks request_type prompt kwargs e) w =
    (inl e, w', evs).
Proof.
  revert w es w' evs.
  induction fallbacks as [| c rest IH]; intros w es w' evs; simpl.
  - by intros [= <- <- <-].
  - destruct (exec (APIManager._execute_request_kw self c request_type prompt kwargs) w)
      as [[[e1 | r] w1] ev1] eqn:Hc; [| discriminate].
    destruct (all_fail self rest request_type prompt kwargs w1)
      as [[[es' w2] ev2] |] eqn:Hrest; [| discriminate].
    intros [= <- <- <-].
    erewrite run_try_except_raise by exact Hc.
    by erewrite IH by exact Hrest.
Qed.

(** The fallback loop stops at the first candidate that returns. *)
Lemma try_fallbacks_first_success (self : APIManager.t) (failing : list Client)
    (B : Client) (rest : list Client) (request_type : APIType) (prompt : string)
    (kwargs : Kwargs) (e : exn) (w : World) es w1 ev1 r w2 ev2 :
  all_fail self failing request_type prompt kwargs w = Some (es, w1, ev1) ->
  exec (APIManager._execute_request_kw self B request_type prompt kwargs) w1 = (inr r, w2, ev2) ->
  exec (APIManager.try_fallbacks self (failing ++ B :: rest)%list request_type prompt kwargs e) w =
    (inr r, w2, (ev1 ++ ev2)%list).
Proof.
  revert w es w1 ev1.
  induction failing as [| c cs IH]; intros w es w1 ev1; simpl.
  - intros [= <- <- <-] HB. by erewrite run_try_except_ret by exact HB.
  - destruct (exec (APIManager._execute_request_kw self c request_type prompt kwargs) w)
      as [[[e1 | r1] w0] ev0] eqn:Hc; [| discriminate].
    destruct (all_fail self cs request_type prompt kwargs w0)
      as [[[es' w0'] ev0'] |] eqn:Hcs; [| discriminate].
    intros [= <- <- <-] HB.
    erewrite run_try_except_raise by exact Hc.
    erewrite IH by eassumption. by rewrite app_assoc.
Qed.

(** A response of a client carries that client's name as its source. *)
Lemma _execute_request_source (self : APIManager.t) (c : Client)
    (request_type : APIType) (prompt : string) (kwargs : Kwargs) (w : World) r w' evs :
  exec (APIManager._execute_request self c request_type prompt kwargs) w = (inr r, w', evs) ->
  source r = Client_source c.
Proof.
  destruct c as [| | name]; simpl; [| | discriminate].
  - unfold APIManager._execute_gemini_request.
    destruct (APIType_in _ _); [| discriminate].
    intros H. apply run_bind_inv in H as (a & w1 & ev1 & ev2 & _ & H & _).
    simpl in H. by injection H as <- _ _.
  - unfold APIManager._execute_perplexity_request.
    destruct (APIType_in _ _); [| discriminate].
    destruct (decide _); intros H;
      apply run_bind_inv in H as (a & w1 & ev1 & ev2 & _ & H & _);
      simpl in H; by injection H as <- _ _.
Qed.

(** A call that returns bound its options without a collision. *)
Lemma _execute_request_kw_inv (self : APIManager.t) (c : Client)
    (request_type : APIType) (prompt : string) (kwargs : Kwargs) (w : World) r w' evs :
  exec (APIManager._execute_request_kw self c request_type prompt kwargs) w =
    (inr r, w', evs) ->
  exec (APIManager._execute_request self c request_type prompt kwargs) w = (inr r, w', evs).
Proof.
  unfold APIManager._execute_request_kw.
  by destruct (kwargs !! "api_client"); [discriminate |].
Qed.

(** C1, as the code has it.  When the call of every candidate of a
    category raises, [route_request] raises the error of the first
    candidate, the very object the primary raised, after having called
    each candidate once in order; when the last candidate's error is a
    different one, it is not what comes out.  The error is re-raised as
    it is: no other error is built around it. *)
Theorem route_request_all_fail_raises_first (self : APIManager.t)
    (request_type : APIType) (prompt : string) (kwargs : Kwargs)
    (primary : Client) (fallbacks : list Client) (w : World)
    (e : exn) (es : list exn) (w' : World) (evs : list Event) :
  APIManager.api_routing self !! request_type = Some (primary :: fallbacks) ->
  all_fail self (primary :: fallbacks) request_type prompt kwargs w = Some (e :: es, w', evs) ->
  exec (APIManager.route_request self request_type prompt kwargs) w = (inl e, w', evs)
  /\ forall e_last, last (e :: es) = Some e_last -> e_last <> e ->
       (exec (APIManager.route_request self request_type prompt kwargs) w).1.1 <> inl e_last.
Proof.
  intros Htable Hfail.
  assert (exec (APIManager.route_request self request_type prompt kwargs) w = (inl e, w', evs))
    as Hrun.
  { unfold APIManager.route_request. rewrite Htable. simpl. simpl in Hfail.
    destruct (exec (APIManager._execute_request_kw self primary request_type prompt kwargs) w)
      as [[[e1 | r] w1] ev1] eqn:Hp; [| discriminate].
    destruct (all_fail self fallbacks request_type prompt kwargs w1)
      as [[[es' w2] ev2] |] eqn:Hrest; [| discriminate].
    injection Hfail as <- <- <- <-.
    erewrite run_try_except_raise by exact Hp.
    by erewrite try_fallbacks_all_fail by exact Hrest. }
  split; [exact Hrun |].
  intros e_last _ Hne. rewrite Hrun. simpl. congruence.
Qed.

(** C2.  When the candidates before [B] all raise and the call of [B]
    returns, [route_request] returns the response of [B], labelled with
    the name of [B].  The world and the events after the run are those of
    the failed calls followed by the call of [B]: the candidates listed
    after [B] are not invoked.  The candidate list [[A; B]] with [A]
    failing is the case [failing = [A]], [rest = []]. *)
Theorem route_request_falls_back (self : APIManager.t)
    (request_type : APIType) (prompt : string) (kwargs : Kwargs)
    (failing : list Client) (B : Client) (rest : list Client) (w : World)
    (es : list exn) (w1 : World) (ev1 : list Event)
    (r : APIResponse) (w2 : World) (ev2 : list Event) :
  APIManager.api_routing self !! request_type = Some (failing ++ B :: rest)%list ->
  all_fail self failing request_type prompt kwargs w = Some (es, w1, ev1) ->
  exec (APIManager._execute_request_kw self B request_type prompt kwargs) w1 = (inr r, w2, ev2) ->
  exec (APIManager.route_request self request_type prompt kwargs) w =
    (inr r, w2, (ev1 ++ ev2)%list)
  /\ source r = Client_source B.
Proof.
  intros Htable Hfail HB.
  split; [| by eapply _execute_request_source, _execute_request_kw_inv].
  unfold APIManager.route_request. rewrite Htable. simpl.
  destruct failing as [| A failing]; simpl in *.
  - injection Hfail as <- <- <-.
    by erewrite run_try_except_ret by exact HB.
  - destruct (exec (APIManager._execute_request_kw self A request_type prompt kwargs) w)
      as [[[e | r0] w0] ev0] eqn:HA; [| discriminate].
    destruct (all_fail self failing request_type prompt kwargs w0)
      as [[[es' w0'] ev0'] |] eqn:Hcs; [| discriminate].
    injection Hfail as <- <- <-.
    erewrite run_try_except_raise by exact HA.
    erewrite try_fallbacks_first_success by eassumption.
    by rewrite app_assoc.
Qed.

(** *** Where a returned response comes from *)

Lemma try_fallbacks_success_inv (self : APIManager.t) (fallbacks : list Client)
    (request_type : APIType) (prompt : string) (kwargs : Kwargs) (e : exn)
    (w : World) r w' evs :
  exec (APIManager.try_fallbacks self fallbacks request_type prompt kwargs e) w =
    (inr r, w', evs) ->
  exists c w1 w2 ev,
    c ∈ fallbacks
    /\ exec (APIManager._execute_request_kw self c request_type prompt kwargs) w1 = (inr r, w2, ev).
Proof.
  revert w evs. induction fallbacks as [| c rest IH]; intros w evs; simpl; [discriminate |].
  unfold try_except. rewrite run_pbind.
  destruct (exec (APIManager._execute_request_kw self c request_type prompt kwargs) w)
    as [[[e1 | r1] w1] ev1] eqn:Hc.
  - destruct (exec (APIManager.try_fallbacks self rest request_type prompt kwargs e) w1)
      as [[o w2] ev2] eqn:Hrest.
    intros [= -> -> <-].
    destruct (IH _ _ Hrest) as (c' & wa & wb & ev & Hin & Hrun).
    exists c', wa, wb, ev. split; [by right | done].
  - simpl. intros [= -> -> <-]. exists c, w, w', ev1. split; [by left | done].
Qed.

Lemma route_request_success_inv (self : APIManager.t)
    (request_type : APIType) (prompt : string) (kwargs : Kwargs)
    (w : World) r w' evs :
  exec (APIManager.route_request self request_type prompt kwargs) w = (inr r, w', evs) ->
  exists c w1 w2 ev,
    c ∈ default [] (APIManager.api_routing self !! request_type)
    /\ exec (APIManager._execute_request_kw self c request_type prompt kwargs) w1 = (inr r, w2, ev).
Proof.
  unfold APIManager.route_request.
  destruct (default [] (APIManager.api_routing self !! request_type))
    as [| primary fallbacks]; simpl; [discriminate |].
  unfold try_except. rewrite run_pbind.
  destruct (exec (APIManager._execute_request_kw self primary request_type prompt kwargs) w)
    as [[[e1 | r1] w1] ev1] eqn:Hp.
  - destruct (exec (APIManager.try_fallbacks self fallbacks request_type prompt kwargs e1) w1)
      as [[o w2] ev2] eqn:Hrest.
    intros [= -> -> <-].
    destruct (try_fallbacks_success_inv _ _ _ _ _ _ _ _ _ _ Hrest)
      as (c & wa & wb & ev & Hin & Hrun).
    exists c, wa, wb, ev. split; [by right | done].
  - simpl. intros [= -> -> <-]. exists primary, w, w', ev1. split; [by left | done].
Qed.

Lemma _execute_gemini_request_inv (self : APIManager.t)
    (request_type : APIType) (prompt : string) (kwargs : Kwargs) (w : World) r w' evs :
  exec (APIManager._execute_gemini_request self request_type prompt kwargs) w =
    (inr r, w', evs) ->
  exists full_prompt options reply,
    gemini_api full_prompt options w = (inr reply, w')
    /\ source r = "gemini" /\ usage r = GeminiClient.usage_of reply.
Proof.
  unfold APIManager._execute_gemini_request.
  destruct (APIType_in _ _); [| discriminate].
  unfold GeminiClient.generate_text_kw, GeminiClient.generate_text, bind. simpl.
  destruct (gemini_api _ _ w) as [[e | reply] w1] eqn:Hg; simpl; [discriminate |].
  intros [= <- <- <-]. by eexists _, _, reply.
Qed.

Lemma search_and_answer_inv (self : PerplexityClient.t) (query : string)
    (system_message return_citations return_images search_domain_filter : PyVal)
    (kwargs : Kwargs) (w : World) resp w' evs :
  exec (PerplexityClient.search_and_answer self query system_message return_citations
          return_images search_domain_filter kwargs) w = (inr resp, w', evs) ->
  exists payload data,
    perplexity_api payload w = (inr data, w')
    /\ p_usage resp = default ∅ (d_usage data).
Proof.
  unfold PerplexityClient.search_and_answer. simpl.
  destruct (perplexity_api _ w) as [[e | data] w1] eqn:Hp; simpl; [discriminate |].
  destruct (PerplexityClient.extract_choice data) as [e | [content finish_reason]];
    simpl; [discriminate |].
  intros [= <- <- <-]. by eexists _, data.
Qed.

Lemma _execute_perplexity_request_inv (self : APIManager.t)
    (request_type : APIType) (prompt : string) (kwargs : Kwargs) (w : World) r w' evs :
  exec (APIManager._execute_perplexity_request self request_type prompt kwargs) w =
    (inr r, w', evs) ->
  exists payload data w1,
    perplexity_api payload w = (inr data, w1)
    /\ source r = "perplexity" /\ usage r = default ∅ (d_usage data).
Proof.
  unfold APIManager._execute_perplexity_request.
  destruct (APIType_in _ _); [| discriminate].
  destruct (decide _); intros H;
    apply run_bind_inv in H as (a & w1 & ev1 & ev2 & Ha & H & _);
    simpl in H; injection H as <- _ _.
  - unfold PerplexityClient.fact_check_kw in Ha.
    destruct (decide _); [| discriminate].
    unfold PerplexityClient.fact_check in Ha.
    apply run_bind_inv in Ha as (resp & w2 & ev3 & ev4 & Hs & Ha & _).
    apply search_and_answer_inv in Hs as (payload & data & Hp & Hu).
    simpl in Ha. destruct (clock w2) as [now w3]. injection Ha as <- _ _.
    exists payload, data, w2. simpl. by rewrite Hu.
  - unfold PerplexityClient.search_and_answer_kw in Ha.
    destruct (kwargs !! "query"); [discriminate |].
    apply search_and_answer_inv in Ha as (payload & data & Hp & Hu).
    by exists payload, data, w1.
Qed.

(** C3, as the code has it.  A response that [route_request] returns was
    produced by one of the two clients from one upstream reply.  When it
    comes from the Gemini client, its usage has the three keys, each
    holding the upstream count and 0 when the reply has no usage
    metadata.  When it comes from the Perplexity client, its usage is the
    reply's own usage mapping, passed on unchanged, and the empty mapping
    when the reply has none: no key is added. *)
Theorem route_request_usage (self : APIManager.t)
    (request_type : APIType) (prompt : string) (kwargs : Kwargs)
    (w : World) (r : APIResponse) (w' : World) (evs : list Event) :
  exec (APIManager.route_request self request_type prompt kwargs) w = (inr r, w', evs) ->
  (source r = "gemini"
   /\ exists full_prompt options w1 w2 reply,
        gemini_api full_prompt options w1 = (inr reply, w2)
        /\ (forall key, key ∈ usage_keys -> is_Some (usage r !! key))
        /\ usage r !! "prompt_tokens" =
             Some (match gc_usage_metadata reply with
                   | Some um => prompt_token_count um | None => 0 end)
        /\ usage r !! "completion_tokens" =
             Some (match gc_usage_metadata reply with
                   | Some um => candidates_token_count um | None => 0 end)
        /\ usage r !! "total_tokens" =
             Some (match gc_usage_metadata reply with
                   | Some um => total_token_count um | None => 0 end))
  \/ (source r = "perplexity"
      /\ exists payload w1 w2 data,
           perplexity_api payload w1 = (inr data, w2)
           /\ usage r = default ∅ (d_usage data)).
Proof.
  intros H. apply route_request_success_inv in H as (c & w1 & w2 & ev & _ & H).
  apply _execute_request_kw_inv in H.
  destruct c as [| | name]; simpl in H; [| | discriminate].
  - left. apply _execute_gemini_request_inv in H as (fp & kw & reply & Hg & Hs & Hu).
    split; [done |]. exists fp, kw, w1, w2, reply. split; [done |].
    rewrite Hu. unfold GeminiClient.usage_of, usage_keys.
    split; [| by simplify_map_eq].
    intros key Hkey. usage_key_cases Hkey; by simplify_map_eq.
  - right. apply _execute_perplexity_request_inv in H as (pl & data & w3 & Hp & Hs & Hu).
    split; [done |]. by exists pl, w1, w3, data.
Qed.

End Router.

(** ** The hybrid executor *)

Section Hybrid.
Context {World : Type}.
Variable gemini_api : string -> Kwargs -> World -> (exn + GenerateContentResponse) * World.
Variable perplexity_api : PplxPayload -> World -> (exn + PplxData) * World.
Variable clock : World -> Timestamp * World.

Local Abbreviation exec := (run gemini_api perplexity_api clock).

(** Gathering yields one outcome per task, whatever the scheduling. *)
Lemma run_in_order_length {A} (tasks : list (Prog A)) (w : World) outs w' evs :
  exec (run_in_order tasks) w = (outs, w', evs) -> length outs = length tasks.
Proof.
  revert w outs w' evs. induction tasks as [| task rest IH]; intros w outs w' evs; simpl.
  - by intros [= <- _ _].
  - rewrite run_pbind. destruct (exec task w) as [[a w1] ev1].
    rewrite run_pbind. destruct (exec (run_in_order rest) w1) as [[l w2] ev2] eqn:Hrest.
    simpl. intros [= <- _ _]. simpl. f_equal. by eapply IH.
Qed.

Lemma gather_length {A} (sched : list nat) (tasks : list (Prog A)) (w : World) outs w' evs :
  exec (gather sched tasks) w = (outs, w', evs) -> length outs = length tasks.
Proof.
  revert tasks w outs w' evs.
  induction sched as [| i sched IH]; intros tasks w outs w' evs; simpl.
  - apply run_in_order_length.
  - destruct (tasks !! i) as [[a | fp kw k | pl k | k] |] eqn:Hi; simpl.
    + apply IH.
    + destruct (gemini_api fp kw w) as [r w1].
      destruct (exec (gather sched (<[i:=k r]> tasks)) w1) as [[l w2] ev2] eqn:Hg.
      intros [= <- _ _]. apply IH in Hg. by rewrite length_insert in Hg.
    + destruct (perplexity_api pl w) as [r w1].
      destruct (exec (gather sched (<[i:=k r]> tasks)) w1) as [[l w2] ev2] eqn:Hg.
      intros [= <- _ _]. apply IH in Hg. by rewrite length_insert in Hg.
    + destruct (clock w) as [t w1].
      destruct (exec (gather sched (<[i:=k t]> tasks)) w1) as [[l w2] ev2] eqn:Hg.
      intros [= <- _ _]. apply IH in Hg. by rewrite length_insert in Hg.
    + apply IH.
Qed.

(** A single gathered task runs as it would alone. *)
Lemma gather_single {A} (sched : list nat) (task : Prog A) (w : World) :
  exec (gather sched [task]) w =
    let '(a, w', evs) := exec task w in ([a], w', evs).
Proof.
  revert task w. induction sched as [| i sched IH]; intros task w.
  - simpl. rewrite run_pbind. destruct (exec task w) as [[a w1] ev1]. simpl.
    by rewrite app_nil_r.
  - destruct i as [| i]; simpl; [| apply IH].
    destruct task as [a | fp kw k | pl k | k]; simpl.
    + by rewrite IH.
    + destruct (gemini_api fp kw w) as [r w1]. rewrite IH.
      by destruct (exec (k r) w1) as [[a w2] ev2].
    + destruct (perplexity_api pl w) as [r w1]. rewrite IH.
      by destruct (exec (k r) w1) as [[a w2] ev2].
    + destruct (clock w) as [t w1]. rewrite IH.
      by destruct (exec (k t) w1) as [[a w2] ev2].
Qed.

(** Options that rebind [request_type] make the creation of the first
    task fail, and [hybrid_request] raises that [TypeError]: a failure
    outside of the gathered tasks. *)
Lemma hybrid_request_option_collision (self : APIManager.t) (sched : list nat)
    (prompt : string) (use_search use_reasoning : bool) (kwargs : Kwargs) :
  is_Some (kwargs !! "request_type") ->
  use_search || use_reasoning = true ->
  APIManager.hybrid_request self sched prompt use_search use_reasoning kwargs =
    raise (TypeError
             "APIManager.route_request() got multiple values for argument 'request_type'").
Proof.
  intros [v Hv] Hflags.
  unfold APIManager.hybrid_request, APIManager.hybrid_tasks, APIManager.route_request_call.
  rewrite Hv. by destruct use_search, use_reasoning.
Qed.

(** C6.  Whatever the flags, the scheduling and the answers of the
    providers, [hybrid_request] returns a mapping and never raises (the
    options being such that the calls of [route_request] can be made at
    all: they do not rebind [request_type]).  Each requested category has
    an outcome of its own in the gathered list ([outs]).  The mapping
    holds the label "search" exactly when the search task was requested
    and returned, and the label "reasoning" exactly when the reasoning
    task was requested and returned, each with the response of its own
    task whatever became of the other task; the label of a task that
    raised is left out.  When every gathered task raised the mapping is
    empty. *)
Theorem hybrid_request_never_raises (self : APIManager.t) (sched : list nat)
    (prompt : string) (use_search use_reasoning : bool) (kwargs : Kwargs) (w : World) :
  kwargs !! "request_type" = None ->
  let tasks :=
    ((if use_search
      then [APIManager.route_request self SEARCH prompt kwargs] else []) ++
     (if use_reasoning
      then [APIManager.route_request self REASONING prompt kwargs] else []))%list in
  let gathered := exec (gather sched tasks) w in
  let outs := gathered.1.1 in
  let search_outcome := if use_search then outs !! 0%nat else None in
  let reasoning_outcome :=
    if use_reasoning then outs !! (if use_search then 1%nat else 0%nat) else None in
  APIManager.hybrid_tasks self prompt use_search use_reasoning kwargs = inr tasks
  /\ length outs = length tasks
  /\ (use_search = true -> is_Some search_outcome)
  /\ (use_reasoning = true -> is_Some reasoning_outcome)
  /\ exists results,
       exec (APIManager.hybrid_request self sched prompt use_search use_reasoning kwargs) w =
         (inr results, gathered.1.2, gathered.2)
       /\ results =
            ((match search_outcome with
              | Some (inr response) => [("search", response)]
              | _ => []
              end) ++
             (match reasoning_outcome with
              | Some (inr response) => [("reasoning", response)]
              | _ => []
              end))%list
       /\ dict_get "search" results =
            match search_outcome with
            | Some (inr response) => Some response
            | _ => None
            end
       /\ dict_get "reasoning" results =
            match reasoning_outcome with
            | Some (inr response) => Some response
            | _ => None
            end
       /\ ((forall o, o ∈ outs -> exists e, o = inl e) -> results = []).
Proof.
  intros Hkw tasks gathered outs search_outcome reasoning_outcome.
  assert (APIManager.hybrid_tasks self prompt use_search use_reasoning kwargs = inr tasks)
    as Htasks.
  { unfold APIManager.hybrid_tasks, APIManager.route_request_call. rewrite Hkw.
    subst tasks. by destruct use_search, use_reasoning. }
  split; [exact Htasks |].
  subst search_outcome reasoning_outcome outs.
  destruct gathered as [[outs w'] evs] eqn:HG. subst gathered. simpl.
  pose proof (gather_length _ _ _ _ _ _ HG) as Hlen.
  unfold APIManager.hybrid_request. rewrite Htasks, run_pbind, HG.
  subst tasks.
  destruct use_search, use_reasoning; simpl in Hlen;
    repeat (destruct outs as [| ? outs]; simpl in Hlen; try discriminate Hlen).
  - split; [done |]. split; [by eauto |]. split; [by eauto |].
    destruct s as [e0 | r0], s0 as [e1 | r1]; simpl; eexists;
      (split; [by rewrite app_nil_r |]); (split; [reflexivity |]);
      (split; [reflexivity |]); (split; [reflexivity |]); intros Hall.
    + done.
    + destruct (Hall (inr r1)) as [e He]; [set_solver | discriminate].
    + destruct (Hall (inr r0)) as [e He]; [set_solver | discriminate].
    + destruct (Hall (inr r0)) as [e He]; [set_solver | discriminate].
  - split; [done |]. split; [by eauto |]. split; [done |].
    destruct s as [e0 | r0]; simpl; eexists;
      (split; [by rewrite app_nil_r |]); (split; [reflexivity |]);
      (split; [reflexivity |]); (split; [reflexivity |]); intros Hall.
    + done.
    + destruct (Hall (inr r0)) as [e He]; [set_solver | discriminate].
  - split; [done |]. split; [done |]. split; [by eauto |].
    destruct s as [e0 | r0]; simpl; eexists;
      (split; [by rewrite app_nil_r |]); (split; [reflexivity |]);
      (split; [reflexivity |]); (split; [reflexivity |]); intros Hall.
    + done.
    + destruct (Hall (inr r0)) as [e He]; [set_solver | discriminate].
  - split; [done |]. split; [done |]. split; [done |].
    simpl. eexists. split; [by rewrite app_nil_r |]. done.
Qed.

End Hybrid.

(** ** The synthesizer *)

Lemma aggregate_usage_lookup (total_usage response_usage : gmap string Z) (key : string) :
  APIManager.aggregate_usage total_usage response_usage !! key =
    (fun v => v + usage_get response_usage key) <$> total_usage !! key.
Proof.
  unfold APIManager.aggregate_usage. rewrite map_lookup_imap.
  by destruct (total_usage !! key).
Qed.

(** The three accumulators after the loop over the inputs. *)
Lemma collect_fold (responses : list (string * APIResponse))
    (combined : list string) (cites : list Citation) (total_usage : gmap string Z) :
  exists combined' total_usage',
    fold_left APIManager.collect responses (combined, cites, total_usage) =
      (combined', (cites ++ input_citations responses)%list, total_usage')
    /\ forall key,
         total_usage' !! key = (fun v => v + usage_sum key responses) <$> total_usage !! key.
Proof.
  revert combined cites total_usage.
  induction responses as [| [label response] rest IH]; intros combined cites total_usage.
  - exists combined, total_usage. simpl. rewrite app_nil_r. split; [done |].
    intros key. destruct (total_usage !! key); simpl; [| done]. f_equal. lia.
  - simpl.
    destruct (IH (combined ++ ["From " +:+ label +:+ ":" +:+ nl +:+ content response])%list
                (match citations response with
                 | Some (c :: cs) => (cites ++ c :: cs)%list
                 | _ => cites
                 end)
                (APIManager.aggregate_usage total_usage (usage response)))
      as (combined' & total_usage' & Hfold & Hsum).
    exists combined', total_usage'. split.
    + rewrite Hfold. do 2 f_equal. unfold input_citations. simpl.
      destruct (citations response) as [[| c cs] |]; simpl; by rewrite <- ?app_assoc.
    + intros key. rewrite Hsum, aggregate_usage_lookup.
      destruct (total_usage !! key); simpl; [| done]. f_equal. lia.
Qed.

Lemma bind_ret_l {A B} (a : A) (f : A -> M B) : bind (ret a) f = f a.
Proof. reflexivity. Qed.

Lemma add_item_ok (total_usage : gmap string Z) (key : string)
    (synthesis_usage : gmap string Z) (a b : Z) :
  total_usage !! key = Some a -> synthesis_usage !! key = Some b ->
  APIManager.add_item total_usage key synthesis_usage = ret (<[key := a + b]> total_usage).
Proof.
  intros Ha Hb. unfold APIManager.add_item, usage_getitem. by rewrite Ha, Hb.
Qed.

(** The request that the synthesis sends to Gemini. *)
Local Abbreviation synthesis_request responses synthesis_prompt :=
  (GeminiClient.full_prompt_of
     (APIManager.synthesis_full_prompt responses synthesis_prompt)
     (VStr APIManager.synthesis_system_instruction)).

(** The shape of a synthesis: one call of Gemini's generation, then a
    return or a raise. *)
Lemma synthesize_responses_shape (self : APIManager.t)
    (responses : list (string * APIResponse)) (synthesis_prompt : option string) :
  exists k,
    APIManager.synthesize_responses self responses synthesis_prompt =
      GenerateContent (synthesis_request responses synthesis_prompt) ∅ k
    /\ (forall e, k (inl e) = raise e)
    /\ (forall reply, exists r,
          k (inr reply) = ret r
          /\ content r = default "" (gc_text reply)
          /\ source r = "synthesized"
          /\ (forall key, key ∈ usage_keys ->
                usage r !! key =
                  Some (usage_sum key responses
                        + usage_get (GeminiClient.usage_of reply) key))
          /\ (forall key, key ∉ usage_keys -> usage r !! key = None)
          /\ metadata r !! "sources" = Some (MLabels (map fst responses))
          /\ metadata r !! "synthesis_model" = Some (MStr (APIManager.gemini_model self))
          /\ citations r = Some (input_citations responses)).
Proof.
  unfold APIManager.synthesize_responses, APIManager.synthesis_full_prompt.
  destruct (collect_fold responses [] [] APIManager.zero_usage)
    as (combined & total_usage & -> & Hsum).
  simpl. eexists. split; [reflexivity |]. split; [done |].
  intros reply. simpl.
  assert (forall key, key ∈ usage_keys ->
            total_usage !! key = Some (usage_sum key responses)) as Htotal.
  { intros key Hkey. rewrite Hsum. usage_key_cases Hkey; by simplify_map_eq. }
  assert (forall key, key ∈ usage_keys ->
            GeminiClient.usage_of reply !! key =
              Some (usage_get (GeminiClient.usage_of reply) key)) as Hreply.
  { intros key Hkey. unfold usage_get. usage_key_cases Hkey; by simplify_map_eq. }
  assert ("prompt_tokens" ∈ usage_keys) as Kp by (unfold usage_keys; repeat constructor).
  assert ("completion_tokens" ∈ usage_keys) as Kc by (unfold usage_keys; repeat constructor).
  assert ("total_tokens" ∈ usage_keys) as Kt by (unfold usage_keys; repeat constructor).
  erewrite add_item_ok; [| exact (Htotal _ Kp) | exact (Hreply _ Kp)].
  rewrite bind_ret_l.
  erewrite add_item_ok;
    [| rewrite lookup_insert_ne by done; exact (Htotal _ Kc) | exact (Hreply _ Kc)].
  rewrite bind_ret_l.
  erewrite add_item_ok;
    [| rewrite !lookup_insert_ne by done; exact (Htotal _ Kt) | exact (Hreply _ Kt)].
  rewrite bind_ret_l.
  eexists. split; [reflexivity |]. simpl.
  split; [done |]. split; [done |]. split.
  - intros key Hkey. usage_key_cases Hkey; by simplify_map_eq.
  - split; [| split; [by simplify_map_eq |]; split; [by simplify_map_eq | done]].
    intros key Hkey. unfold usage_keys in Hkey.
    rewrite !lookup_insert_ne, Hsum by (intros <-; apply Hkey; repeat constructor).
    unfold APIManager.zero_usage.
    rewrite !lookup_insert_ne by (intros <-; apply Hkey; repeat constructor).
    by rewrite lookup_singleton_ne by (intros <-; apply Hkey; repeat constructor).
Qed.

Section Synthesizer.
Context {World : Type}.
Variable gemini_api : string -> Kwargs -> World -> (exn + GenerateContentResponse) * World.
Variable perplexity_api : PplxPayload -> World -> (exn + PplxData) * World.
Variable clock : World -> Timestamp * World.

Local Abbreviation exec := (run gemini_api perplexity_api clock).

(** A synthesis whose Gemini call returns [reply]. *)
Lemma synthesize_responses_returns (self : APIManager.t)
    (responses : list (string * APIResponse)) (synthesis_prompt : option string)
    (w : World) (reply : GenerateContentResponse) (w1 : World) :
  gemini_api (synthesis_request responses synthesis_prompt) ∅ w = (inr reply, w1) ->
  exists r,
    exec (APIManager.synthesize_responses self responses synthesis_prompt) w =
      (inr r, w1, [EvGemini (synthesis_request responses synthesis_prompt) ∅])
    /\ (forall key, key ∈ usage_keys ->
          usage r !! key =
            Some (usage_sum key responses + usage_get (GeminiClient.usage_of reply) key))
    /\ (forall key, key ∉ usage_keys -> usage r !! key = None)
    /\ citations r = Some (input_citations responses).
Proof.
  intros Hg.
  destruct (synthesize_responses_shape self responses synthesis_prompt)
    as (k & -> & _ & Hk).
  destruct (Hk reply) as (r & Hr & _ & _ & Hu & Hn & _ & _ & Hc).
  exists r. simpl. rewrite Hg, Hr. simpl. done.
Qed.

(** C4.  When the synthesis call returns, each of the three usage fields
    of the synthesized response is the sum of that field over all the
    input responses (a missing field counting 0) plus the same field of
    the usage of the synthesis call itself, and the usage has no other
    field.  This holds for every input mapping, the empty one included. *)
Theorem synthesize_responses_usage (self : APIManager.t)
    (responses : list (string * APIResponse)) (synthesis_prompt : option string)
    (w : World) (reply : GenerateContentResponse) (w1 : World) :
  gemini_api (synthesis_request responses synthesis_prompt) ∅ w = (inr reply, w1) ->
  exists r,
    exec (APIManager.synthesize_responses self responses synthesis_prompt) w =
      (inr r, w1, [EvGemini (synthesis_request responses synthesis_prompt) ∅])
    /\ (forall key, key ∈ usage_keys ->
          usage r !! key =
            Some (usage_sum key responses + usage_get (GeminiClient.usage_of reply) key))
    /\ (forall key, key ∉ usage_keys -> usage r !! key = None).
Proof.
  intros Hg.
  destruct (synthesize_responses_returns self _ _ _ _ _ Hg) as (r & Hr & Hu & Hn & _).
  by exists r.
Qed.

(** C5.  When the synthesis call returns, the citations of the
    synthesized response are the citation sequences of the input
    responses put one after the other, in the order in which the input
    mapping lists them; nothing is dropped, merged or reordered. *)
Theorem synthesize_responses_citations (self : APIManager.t)
    (responses : list (string * APIResponse)) (synthesis_prompt : option string)
    (w : World) (reply : GenerateContentResponse) (w1 : World) :
  gemini_api (synthesis_request responses synthesis_prompt) ∅ w = (inr reply, w1) ->
  exists r,
    exec (APIManager.synthesize_responses self responses synthesis_prompt) w =
      (inr r, w1, [EvGemini (synthesis_request responses synthesis_prompt) ∅])
    /\ citations r = Some (input_citations responses)
    /\ length (input_citations responses) =
         sum_list ((fun item => length (default [] (citations item.2))) <$> responses).
Proof.
  intros Hg.
  destruct (synthesize_responses_returns self _ _ _ _ _ Hg) as (r & Hr & _ & _ & Hc).
  exists r. split; [done |]. split; [done |].
  unfold input_citations. clear. induction responses as [| item rest IH]; simpl; [done |].
  by rewrite length_app, IH.
Qed.

(** C9.  For every input mapping a synthesis is one call of the Gemini
    generation followed by a return or a raise: the coroutine has no
    other call, none to Perplexity, and no second attempt.  An error
    raised by the call comes out as it is; a reply gives a response whose
    source is "synthesized" and whose metadata lists the labels of the
    inputs under "sources". *)
Theorem synthesize_responses_delegates_once (self : APIManager.t)
    (responses : list (string * APIResponse)) (synthesis_prompt : option string) :
  (exists k,
     APIManager.synthesize_responses self responses synthesis_prompt =
       GenerateContent (synthesis_request responses synthesis_prompt) ∅ k
     /\ (forall e, k (inl e) = raise e)
     /\ (forall reply, exists r,
           k (inr reply) = ret r
           /\ source r = "synthesized"
           /\ metadata r !! "sources" = Some (MLabels (map fst responses))))
  /\ (forall w : World,
        (exec (APIManager.synthesize_responses self responses synthesis_prompt) w).2 =
          [EvGemini (synthesis_request responses synthesis_prompt) ∅])
  /\ (forall (w : World) e w1,
        gemini_api (synthesis_request responses synthesis_prompt) ∅ w = (inl e, w1) ->
        exec (APIManager.synthesize_responses self responses synthesis_prompt) w =
          (inl e, w1, [EvGemini (synthesis_request responses synthesis_prompt) ∅]))
  /\ (forall (w : World) reply w1,
        gemini_api (synthesis_request responses synthesis_prompt) ∅ w = (inr reply, w1) ->
        exists r,
          exec (APIManager.synthesize_responses self responses synthesis_prompt) w =
            (inr r, w1, [EvGemini (synthesis_request responses synthesis_prompt) ∅])
          /\ source r = "synthesized"
          /\ metadata r !! "sources" = Some (MLabels (map fst responses))).
Proof.
  destruct (synthesize_responses_shape self responses synthesis_prompt)
    as (k & Heq & Hraise & Hk).
  split; [| rewrite Heq; split; [| split]].
  - exists k. split; [done |]. split; [done |].
    intros reply. destruct (Hk reply) as (r & Hr & _ & Hs & _ & _ & Hm & _).
    by exists r.
  - intros w. simpl.
    destruct (gemini_api _ ∅ w) as [[e | reply] w1]; simpl.
    + by rewrite Hraise.
    + destruct (Hk reply) as (r & -> & _). done.
  - intros w e w1 Hg. simpl. by rewrite Hg, Hraise.
  - intros w reply w1 Hg.
    destruct (Hk reply) as (r & Hr & _ & Hs & _ & _ & Hm & _).
    exists r. simpl. by rewrite Hg, Hr.
Qed.

End Synthesizer.

(** ** Concrete scenarios *)

Lemma route_request_no_candidates_witness :
  APIManager.route_request (Scripted.manager_with ∅) SEARCH "q" ∅ =
    raise (ValueError "No APIs available for request type: APIType.SEARCH")
  /\ forall w : Scripted.World,
       Scripted.exec (APIManager.route_request (Scripted.manager_with ∅) SEARCH "q" ∅) w =
         (inl (ValueError "No APIs available for request type: APIType.SEARCH"), w, []).
Proof.
  apply (route_request_no_candidates Scripted.gemini_api Scripted.perplexity_api
           Scripted.clock (Scripted.manager_with ∅) SEARCH "q" ∅).
  left. reflexivity.
Defined.

Lemma unsupported_category_raises_immediately_witness :
  (APIManager._execute_request Scripted.manager gemini_client SEARCH "q" ∅ =
     raise (ValueError "Gemini API does not support request type: APIType.SEARCH")
   /\ forall w : Scripted.World,
        Scripted.exec (APIManager._execute_request Scripted.manager gemini_client SEARCH "q" ∅) w =
          (inl (ValueError "Gemini API does not support request type: APIType.SEARCH"), w, []))
  /\ (APIManager._execute_request Scripted.manager perplexity_client REASONING "q" ∅ =
        raise (ValueError "Perplexity API does not support request type: APIType.REASONING")
      /\ forall w : Scripted.World,
           Scripted.exec
             (APIManager._execute_request Scripted.manager perplexity_client REASONING "q" ∅) w =
             (inl (ValueError "Perplexity API does not support request type: APIType.REASONING"),
              w, [])).
Proof.
  split.
  - apply (proj1 (unsupported_category_raises_immediately Scripted.gemini_api
             Scripted.perplexity_api Scripted.clock Scripted.manager SEARCH "q" ∅)).
    intros H. repeat (apply elem_of_cons in H as [H | H]; [discriminate |]).
    by apply elem_of_nil in H.
  - apply (proj2 (unsupported_category_raises_immediately Scripted.gemini_api
             Scripted.perplexity_api Scripted.clock Scripted.manager REASONING "q" ∅)).
    intros H. repeat (apply elem_of_cons in H as [H | H]; [discriminate |]).
    by apply elem_of_nil in H.
Defined.

Lemma route_request_all_fail_raises_first_witness :
  exists w' evs,
    failures Scripted.gemini_api Scripted.perplexity_api Scripted.clock Scripted.manager
      [gemini_client; perplexity_client] ANALYSIS "q" ∅ Scripted.both_down =
      Some ([Scripted.quota_error; Scripted.http_error], w', evs)
    /\ Scripted.exec (APIManager.route_request Scripted.manager ANALYSIS "q" ∅)
         Scripted.both_down = (inl Scripted.quota_error, w', evs)
    /\ (Scripted.exec (APIManager.route_request Scripted.manager ANALYSIS "q" ∅)
          Scripted.both_down).1.1 <> inl Scripted.http_error.
Proof.
  eexists _, _.
  assert (failures Scripted.gemini_api Scripted.perplexity_api Scripted.clock
            Scripted.manager [gemini_client; perplexity_client] ANALYSIS "q" ∅
            Scripted.both_down = Some ([Scripted.quota_error; Scripted.http_error], _, _))
    as Hfail by (vm_compute; reflexivity).
  split; [exact Hfail |].
  destruct (route_request_all_fail_raises_first Scripted.gemini_api Scripted.perplexity_api
              Scripted.clock Scripted.manager ANALYSIS "q" ∅ gemini_client [perplexity_client]
              Scripted.both_down Scripted.quota_error [Scripted.http_error] _ _
              eq_refl Hfail) as [Hrun Hlast].
  split; [exact Hrun |].
  apply Hlast; [reflexivity | discriminate].
Defined.

(** C1 as the specification words it fails: with both candidates of
    ANALYSIS down, what [route_request] raises is the quota error of the
    first candidate itself, an object of the class the provider raised
    and without a cause; it is no error that wraps the first one. *)
Lemma route_request_raises_no_wrapper :
  APIManager.api_routing Scripted.manager !! ANALYSIS =
    Some [gemini_client; perplexity_client]
  /\ (Scripted.exec (APIManager.route_request Scripted.manager ANALYSIS "q" ∅)
        Scripted.both_down).1.1 = inl Scripted.quota_error
  /\ ~ (exists e,
          (Scripted.exec (APIManager.route_request Scripted.manager ANALYSIS "q" ∅)
             Scripted.both_down).1.1 = inl e
          /\ spec_AllCandidatesFailedError Scripted.quota_error e).
Proof.
  split; [reflexivity |]. split; [reflexivity |].
  intros (e & He & Hclass & Hcause).
  vm_compute in He. injection He as <-. simpl in Hcause. discriminate Hcause.
Qed.

Lemma route_request_falls_back_witness :
  exists r w2 evs,
    Scripted.exec
      (APIManager.route_request (Scripted.manager_with Scripted.three_candidates)
         ANALYSIS "q" ∅) Scripted.gemini_down_once = (inr r, w2, evs)
    /\ source r = "perplexity"
    /\ content r = "found"
    /\ Scripted.gemini_replies w2 = [inr (Scripted.gemini_ok "late" 1 1 2)].
Proof.
  assert (failures Scripted.gemini_api Scripted.perplexity_api Scripted.clock
            (Scripted.manager_with Scripted.three_candidates) [gemini_client]
            ANALYSIS "q" ∅ Scripted.gemini_down_once = Some (_, _, _))
    as Hfail by (vm_compute; reflexivity).
  assert (Scripted.exec
            (APIManager._execute_request_kw (Scripted.manager_with Scripted.three_candidates)
               perplexity_client ANALYSIS "q" ∅)
            (Scripted.world [inr (Scripted.gemini_ok "late" 1 1 2)]
               [inr (Scripted.perplexity_ok "found" None None)]) = (inr _, _, _))
    as HB by (vm_compute; reflexivity).
  destruct (route_request_falls_back Scripted.gemini_api Scripted.perplexity_api
              Scripted.clock (Scripted.manager_with Scripted.three_candidates)
              ANALYSIS "q" ∅ [gemini_client] perplexity_client [gemini_client]
              Scripted.gemini_down_once _ _ _ _ _ _ eq_refl Hfail HB) as [Hrun Hsource].
  eexists _, _, _. split; [exact Hrun |]. split; [exact Hsource |].
  split; reflexivity.
Defined.

Lemma route_request_usage_witness :
  exists r w' evs,
    Scripted.exec (APIManager.route_request Scripted.manager REASONING "q" ∅)
      Scripted.gemini_no_metadata = (inr r, w', evs)
    /\ ((source r = "gemini"
         /\ exists full_prompt options w1 w2 reply,
              Scripted.gemini_api full_prompt options w1 = (inr reply, w2)
              /\ (forall key, key ∈ usage_keys -> is_Some (usage r !! key))
              /\ usage r !! "prompt_tokens" =
                   Some (match gc_usage_metadata reply with
                         | Some um => prompt_token_count um | None => 0 end)
              /\ usage r !! "completion_tokens" =
                   Some (match gc_usage_metadata reply with
                         | Some um => candidates_token_count um | None => 0 end)
              /\ usage r !! "total_tokens" =
                   Some (match gc_usage_metadata reply with
                         | Some um => total_token_count um | None => 0 end))
        \/ (source r = "perplexity"
            /\ exists payload w1 w2 data,
                 Scripted.perplexity_api payload w1 = (inr data, w2)
                 /\ usage r = default ∅ (d_usage data)))
    /\ usage r = {[ "prompt_tokens" := 0; "completion_tokens" := 0; "total_tokens" := 0 ]}.
Proof.
  assert (Scripted.exec (APIManager.route_request Scripted.manager REASONING "q" ∅)
            Scripted.gemini_no_metadata = (inr _, _, _))
    as Hrun by (vm_compute; reflexivity).
  eexists _, _, _. split; [exact Hrun |]. split; [| reflexivity].
  exact (route_request_usage Scripted.gemini_api Scripted.perplexity_api Scripted.clock
           Scripted.manager REASONING "q" ∅ _ _ _ _ Hrun).
Defined.

(** C3 as the specification words it fails: a search answered by
    Perplexity without a usage block comes back from [route_request]
    with the empty usage mapping; none of the three keys is there, and no
    0 stands in for them. *)
Lemma route_request_usage_keys_missing :
  exists r w' evs,
    Scripted.exec (APIManager.route_request Scripted.manager SEARCH "q" ∅)
      Scripted.gemini_down = (inr r, w', evs)
    /\ usage r = ∅
    /\ usage r !! "prompt_tokens" = None
    /\ ~ (forall key, key ∈ usage_keys -> is_Some (usage r !! key)).
Proof.
  eexists _, _, _. split; [vm_compute; reflexivity |].
  split; [reflexivity |]. split; [reflexivity |].
  intros H. destruct (H "prompt_tokens") as [v Hv]; [repeat constructor |].
  discriminate Hv.
Qed.

Lemma synthesize_responses_usage_witness :
  exists r w1 evs,
    Scripted.exec (APIManager.synthesize_responses Scripted.manager Scripted.inputs None)
      Scripted.synthesis_ok = (inr r, w1, evs)
    /\ usage r = {[ "prompt_tokens" := 33; "completion_tokens" := 17; "total_tokens" := 50 ]}.
Proof.
  destruct (synthesize_responses_usage Scripted.gemini_api Scripted.perplexity_api
              Scripted.clock Scripted.manager Scripted.inputs None Scripted.synthesis_ok
              (Scripted.gemini_ok "merged" 3 2 5) (Scripted.world [] []) eq_refl)
    as (r & Hrun & Hkeys & Hother).
  exists r. eexists _, _. split; [exact Hrun |].
  apply map_eq. intros key.
  destruct (decide (key ∈ usage_keys)) as [Hin | Hout].
  - rewrite (Hkeys key Hin). usage_key_cases Hin; by vm_compute.
  - rewrite (Hother key Hout). symmetry. unfold usage_keys in Hout.
    rewrite !lookup_insert_ne by (intros <-; apply Hout; repeat constructor).
    by rewrite lookup_singleton_ne by (intros <-; apply Hout; repeat constructor).
Defined.

Lemma synthesize_responses_citations_witness :
  exists r w1 evs,
    Scripted.exec (APIManager.synthesize_responses Scripted.manager Scripted.inputs None)
      Scripted.synthesis_ok = (inr r, w1, evs)
    /\ citations r = Some [Scripted.c1; Scripted.c1; Scripted.c2].
Proof.
  destruct (synthesize_responses_citations Scripted.gemini_api Scripted.perplexity_api
              Scripted.clock Scripted.manager Scripted.inputs None Scripted.synthesis_ok
              (Scripted.gemini_ok "merged" 3 2 5) (Scripted.world [] []) eq_refl)
    as (r & Hrun & Hcites & _).
  exists r. eexists _, _. split; [exact Hrun |]. exact Hcites.
Defined.

Lemma synthesize_responses_delegates_once_witness :
  exists w1 evs,
    Scripted.exec (APIManager.synthesize_responses Scripted.manager Scripted.inputs None)
      Scripted.both_down = (inl Scripted.quota_error, w1, evs)
    /\ length evs = 1%nat
    /\ Scripted.perplexity_replies w1 = [inl Scripted.http_error].
Proof.
  destruct (synthesize_responses_delegates_once Scripted.gemini_api Scripted.perplexity_api
              Scripted.clock Scripted.manager Scripted.inputs None)
    as (_ & _ & Hraise & _).
  eexists _, _. split.
  - apply (Hraise Scripted.both_down Scripted.quota_error
             (Scripted.world [] [inl Scripted.http_error])).
    reflexivity.
  - split; reflexivity.
Defined.

Lemma hybrid_request_never_raises_witness :
  exists w' evs,
    Scripted.exec
      (APIManager.hybrid_request Scripted.manager [1%nat; 0%nat] "q" true true ∅)
      Scripted.both_down = (inr [], w', evs).
Proof.
  destruct (hybrid_request_never_raises Scripted.gemini_api Scripted.perplexity_api
              Scripted.clock Scripted.manager [1%nat; 0%nat] "q" true true ∅
              Scripted.both_down (lookup_empty "request_type"))
    as (_ & _ & _ & _ & results & Hrun & _ & _ & _ & Hall).
  assert (results = []) as ->.
  { apply Hall. intros o Ho. vm_compute in Ho.
    repeat (apply elem_of_cons in Ho as [-> | Ho]); [by eexists .. |].
    by apply elem_of_nil in Ho. }
  eexists _, _. exact Hrun.
Defined.

(** Hybrid partial success: with Gemini down and Perplexity answering,
    the mapping has the one key "search" and nothing is raised. *)
Example hybrid_request_partial_success :
  exists r w' evs,
    Scripted.exec
      (APIManager.hybrid_request Scripted.manager [0%nat; 1%nat] "q" true true ∅)
      Scripted.gemini_down = (inr [("search", r)], w', evs)
    /\ content r = "found".
Proof. eexists _, _, _. split; [vm_compute; reflexivity | reflexivity]. Qed.

(** The router does not tell the unsupported-category error from any
    other failure of a candidate: with a table that lists Gemini before
    Perplexity for SEARCH, the dispatch to Gemini raises without a call
    and [route_request] goes on to Perplexity, whose answer it returns
    after a single network call. *)
Example route_request_after_unsupported_category :
  exists r w' evs,
    Scripted.exec
      (APIManager.route_request (Scripted.manager_with Scripted.search_via_both)
         SEARCH "q" ∅) Scripted.gemini_down = (inr r, w', evs)
    /\ source r = "perplexity"
    /\ length evs = 1%nat
    /\ Scripted.gemini_replies w' = [inl Scripted.quota_error].
Proof.
  eexists _, _, _. split; [vm_compute; reflexivity |]. split; [reflexivity |].
  split; reflexivity.
Qed.

(** * Further properties *)

(** ** The router and its requests *)

Section RouterRequests.
Context {World : Type}.
Variable gemini_api : string -> Kwargs -> World -> (exn + GenerateContentResponse) * World.
Variable perplexity_api : PplxPayload -> World -> (exn + PplxData) * World.
Variable clock : World -> Timestamp * World.

Local Abbreviation exec := (run gemini_api perplexity_api clock).

(** Case analysis on the next answer of the outside. *)
Ltac outside_answers :=
  repeat
    (simpl;
     match goal with
     | |- context [gemini_api ?a ?b ?c] =>
         destruct (gemini_api a b c) as [[? | ?] ?]
     | |- context [perplexity_api ?a ?c] =>
         destruct (perplexity_api a c) as [[? | ?] ?]
     | |- context [PerplexityClient.extract_choice ?d] =>
         destruct (PerplexityClient.extract_choice d) as [? | [? ?]]
     | |- context [clock ?c] =>
         destruct (clock c) as [? ?]
     end).

(** From [x ∉ c :: rest]: [c] is not [x], and [x ∉ rest]. *)
Ltac not_listed H :=
  first [ intros ->; apply H; by left | intros ?; apply H; by right ].

(** The events of one candidate: at most one request, and only to the
    provider behind the candidate. *)
Lemma _execute_request_kw_events (self : APIManager.t) (c : Client)
    (request_type : APIType) (prompt : string) (kwargs : Kwargs) (w : World) :
  let evs := (exec (APIManager._execute_request_kw self c request_type prompt kwargs) w).2 in
  (length (List.filter is_request evs) <= 1)%nat
  /\ (c <> gemini_client -> Forall (fun ev => is_gemini_event ev = false) evs)
  /\ (c <> perplexity_client -> Forall (fun ev => is_gemini_event ev = true) evs).
Proof.
  unfold APIManager._execute_request_kw.
  destruct (kwargs !! "api_client"); [simpl; by auto |].
  destruct c as [| | name]; simpl.
  - unfold APIManager._execute_gemini_request.
    destruct (APIType_in _ _); [| simpl; by auto].
    unfold GeminiClient.generate_text_kw, GeminiClient.generate_text, bind.
    outside_answers; (split; [simpl; lia |]); (split; [done |]); intros _;
      by repeat constructor.
  - unfold APIManager._execute_perplexity_request.
    destruct (APIType_in _ _); [| simpl; by auto].
    destruct (decide _).
    + unfold PerplexityClient.fact_check_kw.
      destruct (decide _); [| simpl; by auto].
      unfold PerplexityClient.fact_check, PerplexityClient.search_and_answer, bind.
      outside_answers; (split; [simpl; lia |]); (split; [| done]); intros _;
        by repeat constructor.
    + unfold PerplexityClient.search_and_answer_kw.
      destruct (kwargs !! "query"); [simpl; by auto |].
      unfold PerplexityClient.search_and_answer, bind.
      outside_answers; (split; [simpl; lia |]); (split; [| done]); intros _;
        by repeat constructor.
  - by auto.
Qed.

Lemma try_fallbacks_events (self : APIManager.t) (fallbacks : list Client)
    (request_type : APIType) (prompt : string) (kwargs : Kwargs) (e : exn) (w : World) :
  let evs :=
    (exec (APIManager.try_fallbacks self fallbacks request_type prompt kwargs e) w).2 in
  (length (List.filter is_request evs) <= length fallbacks)%nat
  /\ (gemini_client ∉ fallbacks -> Forall (fun ev => is_gemini_event ev = false) evs)
  /\ (perplexity_client ∉ fallbacks -> Forall (fun ev => is_gemini_event ev = true) evs).
Proof.
  revert w. induction fallbacks as [| c rest IH]; intros w; simpl.
  - split; [lia |]. by split; intros _; constructor.
  - unfold try_except. rewrite run_pbind.
    pose proof (_execute_request_kw_events self c request_type prompt kwargs w) as Hc.
    destruct (exec (APIManager._execute_request_kw self c request_type prompt kwargs) w)
      as [[[e1 | r] w1] ev1]; simpl in Hc; destruct Hc as (Hn & Hg & Hp).
    + specialize (IH w1).
      destruct (exec (APIManager.try_fallbacks self rest request_type prompt kwargs e) w1)
        as [[o w2] ev2]; simpl in IH; destruct IH as (IHn & IHg & IHp). simpl.
      split; [rewrite List.filter_app, length_app; lia |].
      split; intros Hnot; apply Forall_app;
        (split; [first [apply Hg | apply Hp] | first [apply IHg | apply IHp]]);
        not_listed Hnot.
    + simpl. rewrite app_nil_r.
      split; [lia |]. split; intros Hnot; [apply Hg | apply Hp]; not_listed Hnot.
Qed.


(** X2.  A provider that the routing table does not list for a category
    is never contacted for it, whatever the listed ones answer: without
    the Gemini client among the candidates no event of the run is a
    Gemini call, and without the Perplexity client every event is one (no
    POST, no clock read). *)
Theorem route_request_provider_isolation (self : APIManager.t)
    (request_type : APIType) (prompt : string) (kwargs : Kwargs) (w : World) :
  let candidates := default [] (APIManager.api_routing self !! request_type) in
  let evs := (exec (APIManager.route_request self request_type prompt kwargs) w).2 in
  (gemini_client ∉ candidates -> Forall (fun ev => is_gemini_event ev = false) evs)
  /\ (perplexity_client ∉ candidates -> Forall (fun ev => is_gemini_event ev = true) evs).
Proof.
  unfold APIManager.route_request.
  destruct (default [] (APIManager.api_routing self !! request_type))
    as [| primary fallbacks]; simpl; [by split; intros _; constructor |].
  unfold try_except. rewrite run_pbind.
  pose proof (_execute_request_kw_events self primary request_type prompt kwargs w) as Hc.
  destruct (exec (APIManager._execute_request_kw self primary request_type prompt kwargs) w)
    as [[[e1 | r] w1] ev1]; simpl in Hc; destruct Hc as (_ & Hg & Hp).
  - pose proof (try_fallbacks_events self fallbacks request_type prompt kwargs e1 w1) as Hf.
    destruct (exec (APIManager.try_fallbacks self fallbacks request_type prompt kwargs e1) w1)
      as [[o w2] ev2]; simpl in Hf; destruct Hf as (_ & Hfg & Hfp). simpl.
    split; intros Hnot; apply Forall_app;
      (split; [first [apply Hg | apply Hp] | first [apply Hfg | apply Hfp]]);
      not_listed Hnot.
  - simpl. rewrite app_nil_r. split; intros Hnot; [apply Hg | apply Hp]; not_listed Hnot.
Qed.

End RouterRequests.

(** ** What a single provider's category does *)

Lemma APIType_in_true (c : APIType) (cs : list APIType) :
  c ∈ cs -> APIType_in c cs = true.
Proof. intros H. unfold APIType_in. by apply bool_decide_eq_true. Qed.

Section SingleProvider.
Context {World : Type}.
Variable gemini_api : string -> Kwargs -> World -> (exn + GenerateContentResponse) * World.
Variable perplexity_api : PplxPayload -> World -> (exn + PplxData) * World.
Variable clock : World -> Timestamp * World.

Local Abbreviation exec := (run gemini_api perplexity_api clock).



End SingleProvider.

(** ** Fact checks, citations and research *)

Section FactCheckAndResearch.
Context {World : Type}.
Variable gemini_api : string -> Kwargs -> World -> (exn + GenerateContentResponse) * World.
Variable perplexity_api : PplxPayload -> World -> (exn + PplxData) * World.
Variable clock : World -> Timestamp * World.

Local Abbreviation exec := (run gemini_api perplexity_api clock).

Lemma only_context_delete (kwargs : Kwargs) :
  (forall key, is_Some (kwargs !! key) -> key = "context") ->
  delete "context" kwargs = ∅.
Proof.
  intros Honly. apply map_eq. intros key. rewrite lookup_empty.
  destruct (decide (key = "context")) as [-> | Hne]; [by rewrite lookup_delete_eq |].
  rewrite lookup_delete_ne by done.
  destruct (kwargs !! key) as [v |] eqn:Hv; [| done].
  exfalso. apply Hne, Honly. by rewrite Hv.
Qed.

(** X5.  A fact check through [route_request], with the table's entry
    for FACT_CHECK being the Perplexity client and no option but
    [context]: one POST whose messages are the fact-checker's system
    message and then "Fact-check this statement: " followed by the prompt
    (and by the context, when there is one), always asking for
    citations.  A transport error is raised as it is and the clock is not
    read.  A reply with a complete first choice gives a response whose
    content is that choice's text, whose citations are those of the reply
    (none when absent), and whose metadata holds the clock reading under
    "timestamp" and nothing else: neither model nor finish reason. *)
Theorem route_request_fact_check (self : APIManager.t) (prompt : string)
    (kwargs : Kwargs) (w : World) :
  APIManager.api_routing self !! FACT_CHECK = Some [perplexity_client] ->
  (forall key, is_Some (kwargs !! key) -> key = "context") ->
  let context := default VNone (kwargs !! "context") in
  let query := "Fact-check this statement: " +:+ prompt in
  let query :=
    if truthy context
    then query +:+ nl +:+ nl +:+ "Context: " +:+ py_str context
    else query in
  exists payload,
    pl_messages payload =
      [("system", VStr PerplexityClient.fact_check_system_message); ("user", VStr query)]
    /\ pl_return_citations payload = VBool true
    /\ pl_extra payload = ∅
    /\ (forall e w1,
          perplexity_api payload w = (inl e, w1) ->
          exec (APIManager.route_request self FACT_CHECK prompt kwargs) w =
            (inl e, w1, [EvPerplexity payload]))
    /\ (forall data w1 choice rest text finish_reason now w2,
          perplexity_api payload w = (inr data, w1) ->
          d_choices data = Some (choice :: rest) ->
          ch_message choice = Some (Some text) ->
          ch_finish_reason choice = Some finish_reason ->
          clock w1 = (now, w2) ->
          exists r,
            exec (APIManager.route_request self FACT_CHECK prompt kwargs) w =
              (inr r, w2, [EvPerplexity payload; EvClock])
            /\ content r = text
            /\ source r = "perplexity"
            /\ usage r = default ∅ (d_usage data)
            /\ citations r = Some (default [] (d_citations data))
            /\ metadata r = {[ "timestamp" := MTime now ]}).
Proof.
  intros Htable Honly context query0 query.
  assert (kwargs !! "api_client" = None) as Hkw.
  { destruct (kwargs !! "api_client") as [v |] eqn:Hv; [| done].
    assert ("api_client" = "context") by (apply Honly; by rewrite Hv). discriminate. }
  unfold APIManager.route_request. rewrite Htable. simpl.
  unfold try_except, APIManager._execute_request_kw. rewrite Hkw. simpl.
  unfold APIManager._execute_perplexity_request.
  rewrite (APIType_in_true FACT_CHECK) by repeat constructor.
  destruct (decide (FACT_CHECK = FACT_CHECK)) as [_ | Hx]; [| done].
  unfold PerplexityClient.fact_check_kw.
  rewrite (only_context_delete _ Honly), dom_empty_L.
  destruct (decide (∅ = ∅)) as [_ | Hne]; [| done].
  unfold PerplexityClient.fact_check, PerplexityClient.search_and_answer, bind. simpl.
  fold context. fold query0. fold query.
  match goal with |- context [perplexity_api ?pl w] => exists pl end.
  split; [done |]. split; [done |]. split; [done |]. split.
  - intros e w1 Hp. by rewrite Hp.
  - intros data w1 choice rest text finish_reason now w2 Hp Hc Hm Hf Hclock.
    rewrite Hp. simpl. unfold PerplexityClient.extract_choice. rewrite Hc, Hm, Hf. simpl.
    rewrite Hclock. simpl. eexists. split; [reflexivity |]. by simpl.
Qed.

(** X6.  A fact check takes no option but [context]: with any other
    option (a temperature, a [return_citations], ...) [route_request]
    raises a [TypeError] without any request having been sent, although
    the same option is accepted for a search. *)
Theorem route_request_fact_check_rejects_options (self : APIManager.t)
    (prompt : string) (kwargs : Kwargs) (key : string) (w : World) :
  APIManager.api_routing self !! FACT_CHECK = Some [perplexity_client] ->
  is_Some (kwargs !! key) ->
  key <> "context" ->
  exists e,
    exec (APIManager.route_request self FACT_CHECK prompt kwargs) w = (inl e, w, [])
    /\ exn_class e = "TypeError".
Proof.
  intros Htable Hkey Hne.
  unfold APIManager.route_request. rewrite Htable. simpl.
  unfold try_except, APIManager._execute_request_kw.
  destruct (kwargs !! "api_client"); [simpl; by eexists |].
  simpl. unfold APIManager._execute_perplexity_request.
  rewrite (APIType_in_true FACT_CHECK) by repeat constructor.
  destruct (decide (FACT_CHECK = FACT_CHECK)) as [_ | Hx]; [| done].
  unfold PerplexityClient.fact_check_kw.
  destruct (decide (dom (delete "context" kwargs) = ∅)) as [Hdom | _];
    [| simpl; by eexists].
  exfalso. assert (key ∈ dom (delete "context" kwargs)) as Hin.
  { apply elem_of_dom. by rewrite lookup_delete_ne. }
  rewrite Hdom in Hin. by apply not_elem_of_empty in Hin.
Qed.

Lemma _execute_perplexity_request_citations (self : APIManager.t)
    (request_type : APIType) (prompt : string) (kwargs : Kwargs) (w : World) r w' evs :
  exec (APIManager._execute_perplexity_request self request_type prompt kwargs) w =
    (inr r, w', evs) ->
  exists cites,
    citations r = Some cites
    /\ (request_type <> FACT_CHECK ->
        truthy (default (VBool true) (kwargs !! "return_citations")) = false ->
        cites = []).
Proof.
  unfold APIManager._execute_perplexity_request.
  destruct (APIType_in _ _); [| discriminate].
  destruct (decide _) as [Heq | Hne]; intros H;
    apply run_bind_inv in H as (a & w1 & ev1 & ev2 & Ha & H & _);
    simpl in H; injection H as <- _ _; simpl.
  - eexists. split; [done |]. by intros [].
  - eexists. split; [done |]. intros _ Hoff.
    unfold PerplexityClient.search_and_answer_kw in Ha.
    destruct (kwargs !! "query"); [discriminate |].
    unfold PerplexityClient.search_and_answer in Ha. simpl in Ha.
    destruct (perplexity_api _ w) as [[e | data] w2]; simpl in Ha; [discriminate |].
    destruct (PerplexityClient.extract_choice data) as [e | [text fr]];
      simpl in Ha; [discriminate |].
    injection Ha as <- _ _. simpl. by rewrite Hoff.
Qed.

(** X7.  Whatever the table, a response that [route_request] returns
    has citations exactly when it comes from Perplexity: a Gemini
    response has none ([None]), a Perplexity response always has a list.
    When the caller turns [return_citations] off for a search or an
    analysis, that list is empty whatever the upstream sent. *)
Theorem route_request_citations (self : APIManager.t) (request_type : APIType)
    (prompt : string) (kwargs : Kwargs) (w : World)
    (r : APIResponse) (w' : World) (evs : list Event) :
  exec (APIManager.route_request self request_type prompt kwargs) w = (inr r, w', evs) ->
  (source r = "gemini" /\ citations r = None)
  \/ (source r = "perplexity"
      /\ exists cites,
           citations r = Some cites
           /\ (request_type <> FACT_CHECK ->
               truthy (default (VBool true) (kwargs !! "return_citations")) = false ->
               cites = [])).
Proof.
  intros H. apply route_request_success_inv in H as (c & w1 & w2 & ev & _ & H).
  apply _execute_request_kw_inv in H.
  pose proof (_execute_request_source _ _ _ _ _ _ _ _ _ _ _ _ H) as Hsource.
  destruct c as [| | name]; simpl in H, Hsource; [| | discriminate].
  - left. split; [done |].
    unfold APIManager._execute_gemini_request in H.
    destruct (APIType_in _ _); [| discriminate].
    apply run_bind_inv in H as (a & wa & ev1 & ev2 & _ & H & _).
    simpl in H. by injection H as <- _ _.
  - right. split; [done |]. by eapply _execute_perplexity_request_citations.
Qed.

(** X8.  [research_topic] is one POST, always asking for citations and
    always for 4096 tokens, whatever the client's configured maximum: the
    option replaces the client's entry in the body.  Its messages are the
    research assistant's system message and the research query.  A
    transport error is raised as it is, without a clock read; a reply
    with a complete first choice gives the topic back with that choice's
    text as the analysis.  In the query an empty list of focus areas and
    an empty time range count as absent ones. *)
Theorem research_topic_request (self : PerplexityClient.t) (topic : string)
    (focus_areas : option (list string)) (time_range : option string) (w : World) :
  Research.research_query topic (Some []) (Some "") = Research.research_query topic None None
  /\ exists payload,
       pl_messages payload =
         [("system", VStr Research.research_system_message);
          ("user", VStr (Research.research_query topic focus_areas time_range))]
       /\ pl_return_citations payload = VBool true
       /\ Research.sent_max_tokens payload = VObj "4096" true
       /\ (forall e w1,
             perplexity_api payload w = (inl e, w1) ->
             exec (Research.research_topic self topic focus_areas time_range) w =
               (inl e, w1, [EvPerplexity payload]))
       /\ (forall data w1 choice rest text finish_reason now w2,
             perplexity_api payload w = (inr data, w1) ->
             d_choices data = Some (choice :: rest) ->
             ch_message choice = Some (Some text) ->
             ch_finish_reason choice = Some finish_reason ->
             clock w1 = (now, w2) ->
             exec (Research.research_topic self topic focus_areas time_range) w =
               (inr {| Research.rr_topic := topic;
                       Research.rr_analysis := text;
                       Research.rr_citations := default [] (d_citations data);
                       Research.rr_usage := default ∅ (d_usage data);
                       Research.rr_timestamp := now |},
                w2, [EvPerplexity payload; EvClock])).
Proof.
  split; [reflexivity |].
  unfold Research.research_topic, PerplexityClient.search_and_answer, bind. simpl.
  match goal with |- context [perplexity_api ?pl w] => exists pl end.
  split; [done |]. split; [done |]. split; [done |]. split.
  - intros e w1 Hp. by rewrite Hp.
  - intros data w1 choice rest text finish_reason now w2 Hp Hc Hm Hf Hclock.
    rewrite Hp. simpl. unfold PerplexityClient.extract_choice. rewrite Hc, Hm, Hf. simpl.
    by rewrite Hclock.
Qed.

End FactCheckAndResearch.

(** ** The hybrid executor and the scheduling *)

Section HybridAlone.
Context {World : Type}.
Variable gemini_api : string -> Kwargs -> World -> (exn + GenerateContentResponse) * World.
Variable perplexity_api : PplxPayload -> World -> (exn + PplxData) * World.
Variable clock : World -> Timestamp * World.

Local Abbreviation exec := (run gemini_api perplexity_api clock).

(** X9.  With a single flag set, [hybrid_request] is [route_request]
    for that category under another result type, for every scheduling:
    the same requests in the same order and the same final world; the
    mapping holds the one label with the response when the route returns,
    and is empty when the route raises. *)
Theorem hybrid_request_single_flag (self : APIManager.t) (sched : list nat)
    (prompt : string) (kwargs : Kwargs) (w : World) :
  kwargs !! "request_type" = None ->
  exec (APIManager.hybrid_request self sched prompt true false kwargs) w =
    (let '(o, w1, evs) := exec (APIManager.route_request self SEARCH prompt kwargs) w in
     (inr match o with inr r => [("search", r)] | inl _ => [] end, w1, evs))
  /\ exec (APIManager.hybrid_request self sched prompt false true kwargs) w =
       (let '(o, w1, evs) := exec (APIManager.route_request self REASONING prompt kwargs) w in
        (inr match o with inr r => [("reasoning", r)] | inl _ => [] end, w1, evs)).
Proof.
  intros Hkw.
  unfold APIManager.hybrid_request, APIManager.hybrid_tasks, APIManager.route_request_call.
  rewrite Hkw. simpl. rewrite !run_pbind, !gather_single.
  split.
  - destruct (exec (APIManager.route_request self SEARCH prompt kwargs) w)
      as [[[e | r] w1] evs]; simpl; by rewrite app_nil_r.
  - destruct (exec (APIManager.route_request self REASONING prompt kwargs) w)
      as [[[e | r] w1] evs]; simpl; by rewrite app_nil_r.
Qed.

(** Gathering next to a task that has already returned. *)
Lemma gather_ret_l {A} (sched : list nat) (a : A) (t : Prog A) (w : World) :
  exec (gather sched [Ret a; t]) w =
    let '(b, w', evs) := exec t w in ([a; b], w', evs).
Proof.
  revert t w. induction sched as [| i sched IH]; intros t w.
  - simpl. rewrite !run_pbind. destruct (exec t w) as [[b w1] ev1]. simpl.
    by rewrite !app_nil_r.
  - destruct i as [| [| i]]; simpl; [apply IH | | apply IH].
    destruct t as [b | fp kw k | pl k | k]; simpl.
    + by rewrite IH.
    + destruct (gemini_api fp kw w) as [r w1]. rewrite IH.
      by destruct (exec (k r) w1) as [[b w2] ev2].
    + destruct (perplexity_api pl w) as [r w1]. rewrite IH.
      by destruct (exec (k r) w1) as [[b w2] ev2].
    + destruct (clock w) as [now w1]. rewrite IH.
      by destruct (exec (k now) w1) as [[b w2] ev2].
Qed.

Lemma gather_ret_r {A} (sched : list nat) (t : Prog A) (b : A) (w : World) :
  exec (gather sched [t; Ret b]) w =
    let '(a, w', evs) := exec t w in ([a; b], w', evs).
Proof.
  revert t w. induction sched as [| i sched IH]; intros t w.
  - simpl. rewrite run_pbind. destruct (exec t w) as [[a w1] ev1]. simpl.
    by rewrite app_nil_r.
  - destruct i as [| [| i]]; simpl; [| apply IH | apply IH].
    destruct t as [a | fp kw k | pl k | k]; simpl.
    + by rewrite IH.
    + destruct (gemini_api fp kw w) as [r w1]. rewrite IH.
      by destruct (exec (k r) w1) as [[a w2] ev2].
    + destruct (perplexity_api pl w) as [r w1]. rewrite IH.
      by destruct (exec (k r) w1) as [[a w2] ev2].
    + destruct (clock w) as [now w1]. rewrite IH.
      by destruct (exec (k now) w1) as [[a w2] ev2].
Qed.

End HybridAlone.

Section Independent.
Context {Wg Wp : Type}.
Variable g : string -> Kwargs -> Wg -> (exn + GenerateContentResponse) * Wg.
Variable p : PplxPayload -> Wp -> (exn + PplxData) * Wp.
Variable clock : Wg * Wp -> Timestamp * (Wg * Wp).

Local Abbreviation exec := (run (gemini_alone g) (perplexity_alone p) clock).

Lemma gemini_alone_eq full_prompt kwargs (wg : Wg) (wp : Wp) r wg' :
  g full_prompt kwargs wg = (r, wg') ->
  gemini_alone g full_prompt kwargs (wg, wp) = (r, (wg', wp)).
Proof. intros H. unfold gemini_alone. simpl. by rewrite H. Qed.

Lemma perplexity_alone_eq payload (wg : Wg) (wp : Wp) r wp' :
  p payload wp = (r, wp') ->
  perplexity_alone p payload (wg, wp) = (r, (wg, wp')).
Proof. intros H. unfold perplexity_alone. simpl. by rewrite H. Qed.

(** Two gathered tasks, one with at most a POST and one with at most a
    Gemini call, on providers that share no state: every scheduling
    gives the outcomes and the final world of running them in order, and
    the same events up to their order. *)
Lemma gather_two_independent {A} (sched : list nat) (ts tr : Prog A) (w : Wg * Wp) :
  one_post ts -> one_generate tr ->
  (exec (gather sched [ts; tr]) w).1 = (exec (gather [] [ts; tr]) w).1
  /\ (exec (gather sched [ts; tr]) w).2 ≡ₚ (exec (gather [] [ts; tr]) w).2.
Proof.
  intros [[a ->] | (pl & k & -> & Hk)] Hr.
  { by rewrite !gather_ret_l. }
  destruct Hr as [[b ->] | (fp & kw & k' & -> & Hk')].
  { by rewrite !gather_ret_r. }
  destruct w as [wg wp].
  destruct (p pl wp) as [r wp'] eqn:Hp. destruct (g fp kw wg) as [r' wg'] eqn:Hg.
  destruct (Hk r) as [a Ha]. destruct (Hk' r') as [b Hb].
  assert (exec (gather [] [Post pl k; GenerateContent fp kw k']) (wg, wp) =
          ([a; b], (wg', wp'), [EvPerplexity pl; EvGemini fp kw])) as ->.
  { simpl. rewrite (perplexity_alone_eq _ _ _ _ _ Hp), Ha. simpl.
    by rewrite (gemini_alone_eq _ _ _ _ _ _ Hg), Hb. }
  simpl. induction sched as [| i sched IH].
  - simpl. rewrite (perplexity_alone_eq _ _ _ _ _ Hp), Ha. simpl.
    by rewrite (gemini_alone_eq _ _ _ _ _ _ Hg), Hb.
  - destruct i as [| [| i]]; [| | exact IH]; clear IH; simpl.
    + rewrite (perplexity_alone_eq _ _ _ _ _ Hp), Ha, gather_ret_l. simpl.
      by rewrite (gemini_alone_eq _ _ _ _ _ _ Hg), Hb.
    + rewrite (gemini_alone_eq _ _ _ _ _ _ Hg), Hb, gather_ret_r. simpl.
      rewrite (perplexity_alone_eq _ _ _ _ _ Hp), Ha. simpl.
      split; [done |]. apply perm_swap.
Qed.

Lemma route_request_search_one_post (self : APIManager.t) (prompt : string)
    (kwargs : Kwargs) :
  APIManager.api_routing self !! SEARCH = Some [perplexity_client] ->
  one_post (APIManager.route_request self SEARCH prompt kwargs).
Proof.
  intros Htable. unfold APIManager.route_request. rewrite Htable. simpl.
  unfold APIManager._execute_request_kw.
  destruct (kwargs !! "api_client"); [left; by eexists |].
  simpl. unfold APIManager._execute_perplexity_request. simpl.
  unfold PerplexityClient.search_and_answer_kw.
  destruct (kwargs !! "query"); [left; by eexists |].
  right. unfold PerplexityClient.search_and_answer, try_except, bind. simpl.
  eexists _, _. split; [reflexivity |].
  intros [e | data]; simpl; [by eexists |].
  destruct (PerplexityClient.extract_choice data) as [e | [text fr]]; simpl; by eexists.
Qed.

Lemma route_request_reasoning_one_generate (self : APIManager.t) (prompt : string)
    (kwargs : Kwargs) :
  APIManager.api_routing self !! REASONING = Some [gemini_client] ->
  one_generate (APIManager.route_request self REASONING prompt kwargs).
Proof.
  intros Htable. unfold APIManager.route_request. rewrite Htable. simpl.
  unfold APIManager._execute_request_kw.
  destruct (kwargs !! "api_client"); [left; by eexists |].
  right. simpl. unfold APIManager._execute_gemini_request. simpl.
  unfold GeminiClient.generate_text_kw, GeminiClient.generate_text, try_except, bind. simpl.
  eexists _, _, _. split; [reflexivity |].
  intros [e | reply]; simpl; by eexists.
Qed.

(** X10.  When the table sends SEARCH to Perplexity alone and REASONING
    to Gemini alone, as the constructor's table does, and the two
    providers share no state, the scheduling of the two tasks does not
    matter to the caller: for every order in which the event loop resumes
    them, [hybrid_request] gives the same mapping and leaves the same
    world as running the search and then the reasoning, and it sends the
    same requests, possibly in the other order. *)
Theorem hybrid_request_schedule_independent (self : APIManager.t) (sched : list nat)
    (prompt : string) (use_search use_reasoning : bool) (kwargs : Kwargs) (w : Wg * Wp) :
  APIManager.api_routing self !! SEARCH = Some [perplexity_client] ->
  APIManager.api_routing self !! REASONING = Some [gemini_client] ->
  (exec (APIManager.hybrid_request self sched prompt use_search use_reasoning kwargs) w).1 =
    (exec (APIManager.hybrid_request self [] prompt use_search use_reasoning kwargs) w).1
  /\ (exec (APIManager.hybrid_request self sched prompt use_search use_reasoning kwargs) w).2
     ≡ₚ (exec (APIManager.hybrid_request self [] prompt use_search use_reasoning kwargs) w).2.
Proof.
  intros Hs Hr.
  unfold APIManager.hybrid_request, APIManager.hybrid_tasks, APIManager.route_request_call.
  destruct (kwargs !! "request_type");
    [destruct use_search, use_reasoning; simpl; rewrite ?gather_nil; by split |].
  destruct use_search, use_reasoning; cbv zeta; cbn [app].
  - pose proof (gather_two_independent sched _ _ w
                  (route_request_search_one_post self prompt kwargs Hs)
                  (route_request_reasoning_one_generate self prompt kwargs Hr))
      as [Hres Hev].
    rewrite !run_pbind.
    destruct (exec (gather sched _) w) as [[outs w1] evs].
    destruct (exec (gather [] _) w) as [[outs' w1'] evs'].
    simpl in Hres, Hev. injection Hres as -> ->. simpl.
    split; [done |]. by rewrite !app_nil_r.
  - by rewrite !run_pbind, !gather_single.
  - by rewrite !run_pbind, !gather_single.
  - by rewrite !gather_nil.
Qed.

End Independent.

(** ** The synthesizer's prompt and the empty mapping *)

Lemma collect_combined (responses : list (string * APIResponse))
    (combined : list string) (cites : list Citation) (total_usage : gmap string Z) :
  (fold_left APIManager.collect responses (combined, cites, total_usage)).1.1 =
    (combined ++ map labelled responses)%list.
Proof.
  revert combined cites total_usage.
  induction responses as [| [label response] rest IH]; intros combined cites total_usage.
  - simpl. by rewrite app_nil_r.
  - simpl. rewrite IH. by rewrite <- app_assoc.
Qed.

Section SynthesizerMore.
Context {World : Type}.
Variable gemini_api : string -> Kwargs -> World -> (exn + GenerateContentResponse) * World.
Variable perplexity_api : PplxPayload -> World -> (exn + PplxData) * World.
Variable clock : World -> Timestamp * World.

Local Abbreviation exec := (run gemini_api perplexity_api clock).

(** X11.  The prompt that a synthesis sends to Gemini is the
    synthesizer's system instruction as the "System:" part and, as the
    "User:" part, the instruction prompt (the default one when none or
    the empty string is given), a blank line, and one block
    "From <label>:" with the content of the response per input, in the
    order of the input mapping, the blocks separated by blank lines.  It
    is the only event of the run, whatever Gemini answers. *)
Theorem synthesize_responses_prompt (self : APIManager.t)
    (responses : list (string * APIResponse)) (synthesis_prompt : option string)
    (w : World) :
  let instruction :=
    match synthesis_prompt with
    | Some s => if String.eqb s "" then APIManager.default_synthesis_prompt else s
    | None => APIManager.default_synthesis_prompt
    end in
  let user_part :=
    instruction +:+ nl +:+ nl +:+ join (nl +:+ nl) (map labelled responses) in
  (exec (APIManager.synthesize_responses self responses synthesis_prompt) w).2 =
    [EvGemini ("System: " +:+ APIManager.synthesis_system_instruction +:+ nl +:+ nl
               +:+ "User: " +:+ user_part) ∅].
Proof.
  intros instruction user_part.
  destruct (synthesize_responses_shape self responses synthesis_prompt)
    as (k & -> & Hraise & Hk).
  assert (synthesis_request responses synthesis_prompt =
          "System: " +:+ APIManager.synthesis_system_instruction +:+ nl +:+ nl
          +:+ "User: " +:+ user_part) as ->.
  { unfold GeminiClient.full_prompt_of, APIManager.synthesis_full_prompt.
    rewrite collect_combined. reflexivity. }
  simpl. destruct (gemini_api _ ∅ w) as [[e | reply] w1]; simpl.
  - by rewrite Hraise.
  - by destruct (Hk reply) as (r & -> & _).
Qed.

(** X12.  Synthesizing the empty mapping is no error: Gemini is still
    called once, with the instruction alone as the user part; the
    response has exactly the usage of that call, an empty (not absent)
    citation list and an empty list of sources. *)
Theorem synthesize_responses_empty (self : APIManager.t)
    (synthesis_prompt : option string) (w : World)
    (reply : GenerateContentResponse) (w1 : World) :
  gemini_api (synthesis_request [] synthesis_prompt) ∅ w = (inr reply, w1) ->
  exists r,
    exec (APIManager.synthesize_responses self [] synthesis_prompt) w =
      (inr r, w1, [EvGemini (synthesis_request [] synthesis_prompt) ∅])
    /\ content r = default "" (gc_text reply)
    /\ usage r = GeminiClient.usage_of reply
    /\ citations r = Some []
    /\ metadata r !! "sources" = Some (MLabels []).
Proof.
  intros Hg.
  destruct (synthesize_responses_shape self [] synthesis_prompt) as (k & -> & _ & Hk).
  destruct (Hk reply) as (r & Hr & Hcontent & _ & Hkeys & Hother & Hsources & _ & Hcites).
  exists r. simpl. rewrite Hg, Hr. simpl.
  split; [done |]. split; [done |]. split; [| by split].
  apply map_eq. intros key.
  destruct (decide (key ∈ usage_keys)) as [Hin | Hout].
  - rewrite (Hkeys key Hin). unfold usage_get, GeminiClient.usage_of.
    usage_key_cases Hin; by simplify_map_eq.
  - rewrite (Hother key Hout). symmetry. unfold GeminiClient.usage_of, usage_keys in *.
    rewrite !lookup_insert_ne by (intros <-; apply Hout; repeat constructor).
    by rewrite lookup_singleton_ne by (intros <-; apply Hout; repeat constructor).
Qed.

End SynthesizerMore.

(** ** The streaming search *)

Lemma dict_get_existsb {V} (key : string) (items : list (string * V)) :
  existsb (fun item => String.eqb item.1 key) items =
    match dict_get key items with Some _ => true | None => false end.
Proof.
  induction items as [| [k x] rest IH]; simpl; [done |].
  destruct (String.eqb k key); simpl; [done | exact IH].
Qed.

#[local] Arguments Stream.drop_chars : simpl never.

Section StreamProperties.
Variable py_strip : string -> string.
Variable json_loads : string -> option Json.
Variable self : PerplexityClient.t.
Variable query : string.
Variable system_message : PyVal.
Variable kwargs : Kwargs.

Local Abbreviation process := (Stream.process_line py_strip json_loads).
Local Abbreviation consume := (Stream.consume py_strip json_loads).
Local Abbreviation stream upstream :=
  (Stream.search_stream py_strip json_loads self upstream query system_message kwargs).

Lemma ignorable_skip (line : string) :
  Stream.ignorable py_strip json_loads line = true -> process line = Stream.Skip.
Proof.
  unfold Stream.ignorable, Stream.process_line.
  destruct (String.prefix "data: " line); simpl; [| done].
  destruct (String.eqb (py_strip (Stream.drop_chars 6 line)) "[DONE]"); simpl; [done |].
  destruct (json_loads (Stream.drop_chars 6 line)); simpl; [discriminate | done].
Qed.

(** X13.  Lines that the loop passes over never change what the stream
    delivers: a response from which every line without the "data: "
    prefix and every data line that does not decode (and is not the end
    mark) has been removed gives the same items and the same end. *)
Theorem search_stream_ignores_lines (lines : list string) (failure : option exn) :
  stream (fun _ =>
            inr (List.filter (fun line => negb (Stream.ignorable py_strip json_loads line))
                   lines, failure)) =
  stream (fun _ => inr (lines, failure)).
Proof.
  unfold Stream.search_stream.
  induction lines as [| line rest IH]; simpl; [done |].
  destruct (Stream.ignorable py_strip json_loads line) eqn:Hi; simpl.
  - by rewrite (ignorable_skip _ Hi).
  - destruct (process line); [done | by rewrite IH | done | done].
Qed.

(** X14.  The end mark ends the stream for good: whatever follows a data
    line whose payload strips to "[DONE]", further chunks or a transport
    error, is never delivered and never raised; the stream is what the
    lines before the mark give, ending normally. *)
Theorem search_stream_stops_at_done (before : list string) (line : string)
    (after : list string) (failure : option exn) :
  String.prefix "data: " line = true ->
  py_strip (Stream.drop_chars 6 line) = "[DONE]" ->
  stream (fun _ => inr ((before ++ line :: after)%list, failure)) =
  stream (fun _ => inr (before, None)).
Proof.
  intros Hprefix Hdone. unfold Stream.search_stream.
  assert (process line = Stream.Done) as Hline.
  { unfold Stream.process_line. by rewrite Hprefix, Hdone. }
  induction before as [| l rest IH]; simpl; [by rewrite Hline |].
  destruct (process l); [done | by rewrite IH | done | done].
Qed.

(** X15.  A transport error never takes back what was yielded: the
    items are those of the same lines received without error.  A refused
    request yields nothing and raises the error; an error that breaks the
    stream off is raised, as it is, after the items of the lines received
    when none of these lines ended the loop. *)
Theorem search_stream_transport_error (lines : list string) (e : exn) :
  (stream (fun _ => inr (lines, Some e))).1 = (stream (fun _ => inr (lines, None))).1
  /\ stream (fun _ => inl e) = ([], Some e)
  /\ (Forall (fun line => process line = Stream.Skip \/ exists v, process line = Stream.Yield v)
        lines ->
      (stream (fun _ => inr (lines, Some e))).2 = Some e).
Proof.
  unfold Stream.search_stream. split; [| split; [done |]].
  - induction lines as [| line rest IH]; simpl; [done |].
    destruct (process line); [done | | done | done].
    destruct (consume rest (Some e)) as [ys o], (consume rest None) as [ys' o'].
    simpl in *. by rewrite IH.
  - induction 1 as [| line rest [Hl | [v Hl]] _ IH]; simpl; [done | by rewrite Hl |].
    rewrite Hl. by destruct (consume rest (Some e)) as [ys o].
Qed.

(** X16.  A data line that decodes to an object whose "choices" is a
    list, whose first choice has a "delta" that has a "content", yields
    that content, whatever else the object holds, and the stream goes on
    with the next line.  An object without "choices", or with an empty
    list of choices, yields nothing and the stream goes on. *)
Theorem search_stream_chunk (line : string) (rest : list string) (failure : option exn)
    (items : list (string * Json)) :
  String.prefix "data: " line = true ->
  py_strip (Stream.drop_chars 6 line) <> "[DONE]" ->
  json_loads (Stream.drop_chars 6 line) = Some (JObj items) ->
  (forall first others delta v,
     dict_get "choices" items = Some (JList (JObj first :: others)) ->
     dict_get "delta" first = Some (JObj delta) ->
     dict_get "content" delta = Some v ->
     stream (fun _ => inr (line :: rest, failure)) =
       (v :: (stream (fun _ => inr (rest, failure))).1,
        (stream (fun _ => inr (rest, failure))).2))
  /\ (dict_get "choices" items = None \/ dict_get "choices" items = Some (JList []) ->
      stream (fun _ => inr (line :: rest, failure)) = stream (fun _ => inr (rest, failure))).
Proof.
  intros Hprefix Hnot Hloads. unfold Stream.search_stream. simpl.
  unfold Stream.process_line. rewrite Hprefix.
  apply String.eqb_neq in Hnot. rewrite Hnot, Hloads. simpl.
  rewrite dict_get_existsb. split.
  - intros first others delta v Hc Hd Hv. rewrite Hc. simpl. rewrite Hd. simpl.
    rewrite dict_get_existsb, Hv.
    by destruct (consume rest failure).
  - by intros [-> | ->].
Qed.

(** X17.  A data line whose payload is valid JSON but a bare number,
    [true], [false] or [null] breaks the stream: the membership test on
    it raises a [TypeError], which is no decoding error and so is not
    passed over; the items of the earlier lines have been delivered, the
    later lines are never read. *)
Theorem search_stream_scalar_chunk (line : string) (rest : list string)
    (failure : option exn) (v : Json) :
  String.prefix "data: " line = true ->
  py_strip (Stream.drop_chars 6 line) <> "[DONE]" ->
  json_loads (Stream.drop_chars 6 line) = Some v ->
  match v with JNull | JBool _ | JInt _ | JFloat _ _ => True | _ => False end ->
  exists e,
    exn_class e = "TypeError"
    /\ stream (fun _ => inr (line :: rest, failure)) = ([], Some e).
Proof.
  intros Hprefix Hnot Hloads Hscalar. unfold Stream.search_stream. simpl.
  unfold Stream.process_line. rewrite Hprefix.
  apply String.eqb_neq in Hnot. rewrite Hnot, Hloads.
  destruct v; try done; simpl; (eexists; split; [| reflexivity]; reflexivity).
Qed.

End StreamProperties.

(** ** Concrete scenarios for the further properties *)

Lemma route_request_provider_isolation_witness :
  Forall (fun ev => is_gemini_event ev = true)
    (Scripted.exec (APIManager.route_request Scripted.manager REASONING "q" ∅)
       Scripted.both_down).2
  /\ Forall (fun ev => is_gemini_event ev = false)
       (Scripted.exec (APIManager.route_request Scripted.manager SEARCH "q" ∅)
          Scripted.both_down).2.
Proof.
  split.
  - apply (proj2 (route_request_provider_isolation Scripted.gemini_api
             Scripted.perplexity_api Scripted.clock Scripted.manager REASONING "q" ∅
             Scripted.both_down)).
    intros H. vm_compute in H. apply list_elem_of_singleton in H. discriminate.
  - apply (proj1 (route_request_provider_isolation Scripted.gemini_api
             Scripted.perplexity_api Scripted.clock Scripted.manager SEARCH "q" ∅
             Scripted.both_down)).
    intros H. vm_compute in H. apply list_elem_of_singleton in H. discriminate.
Defined.



Lemma route_request_fact_check_witness :
  exists r w2 evs,
    Scripted.exec
      (APIManager.route_request Scripted.manager FACT_CHECK "The sky is green."
         {[ "context" := VStr "weather" ]})
      Scripted.gemini_down = (inr r, w2, evs)
    /\ content r = "found"
    /\ metadata r = {[ "timestamp" := MTime {| ts_ticks := 0 |} ]}
    /\ length evs = 2%nat.
Proof.
  destruct (route_request_fact_check Scripted.gemini_api Scripted.perplexity_api
              Scripted.clock Scripted.manager "The sky is green."
              {[ "context" := VStr "weather" ]} Scripted.gemini_down eq_refl)
    as (payload & _ & _ & _ & _ & Hok).
  { intros key [v Hv]. destruct (decide (key = "context")) as [-> | Hne]; [done |].
    by rewrite lookup_singleton_ne in Hv. }
  destruct (Hok (Scripted.perplexity_ok "found" None None)
              (Scripted.world [inl Scripted.quota_error] [])
              _ _ "found" "stop" {| ts_ticks := 0 |}
              {| Scripted.gemini_replies := [inl Scripted.quota_error];
                 Scripted.perplexity_replies := [];
                 Scripted.now := 1 |}
              eq_refl eq_refl eq_refl eq_refl eq_refl)
    as (r & Hrun & Hcontent & _ & _ & _ & Hmeta).
  exists r. eexists _, _. split; [exact Hrun |]. split; [exact Hcontent |].
  split; [exact Hmeta | reflexivity].
Defined.

Lemma route_request_fact_check_rejects_options_witness :
  exists e,
    Scripted.exec
      (APIManager.route_request Scripted.manager FACT_CHECK "The sky is green."
         {[ "return_citations" := VBool false ]})
      Scripted.gemini_down = (inl e, Scripted.gemini_down, [])
    /\ exn_class e = "TypeError".
Proof.
  apply (route_request_fact_check_rejects_options Scripted.gemini_api
           Scripted.perplexity_api Scripted.clock Scripted.manager "The sky is green."
           {[ "return_citations" := VBool false ]} "return_citations"
           Scripted.gemini_down eq_refl).
  - by rewrite lookup_singleton_eq.
  - discriminate.
Defined.

Lemma route_request_citations_witness :
  exists r w' evs,
    Scripted.exec
      (APIManager.route_request Scripted.manager SEARCH "q"
         {[ "return_citations" := VBool false ]})
      (Scripted.world [] [inr (Scripted.perplexity_ok "found" (Some [Scripted.c1]) None)]) =
      (inr r, w', evs)
    /\ source r = "perplexity"
    /\ citations r = Some [].
Proof.
  assert (Scripted.exec
            (APIManager.route_request Scripted.manager SEARCH "q"
               {[ "return_citations" := VBool false ]})
            (Scripted.world [] [inr (Scripted.perplexity_ok "found" (Some [Scripted.c1]) None)]) =
          (inr _, _, _)) as Hrun by (vm_compute; reflexivity).
  eexists _, _, _. split; [exact Hrun |].
  destruct (route_request_citations Scripted.gemini_api Scripted.perplexity_api
              Scripted.clock Scripted.manager SEARCH "q"
              {[ "return_citations" := VBool false ]} _ _ _ _ Hrun)
    as [[Hs _] | [Hs (cites & Hc & Hoff)]]; [discriminate Hs |].
  split; [exact Hs |]. rewrite Hc. f_equal. apply Hoff; [discriminate | reflexivity].
Defined.

Lemma research_topic_request_witness :
  exists res w2 evs,
    Scripted.exec
      (Research.research_topic Demo.client "tides" (Some ["moon"; "sun"]) (Some "2024"))
      Scripted.gemini_down = (inr res, w2, evs)
    /\ Research.rr_analysis res = "found"
    /\ Research.research_query "tides" (Some ["moon"; "sun"]) (Some "2024") =
         "Research and analyze: tides Focus on: moon, sun Time range: 2024 Provide comprehensive analysis with key findings, trends, and insights.".
Proof.
  destruct (research_topic_request Scripted.gemini_api Scripted.perplexity_api
              Scripted.clock Demo.client "tides" (Some ["moon"; "sun"]) (Some "2024")
              Scripted.gemini_down)
    as (_ & payload & _ & _ & _ & _ & Hok).
  specialize (Hok (Scripted.perplexity_ok "found" None None)
                (Scripted.world [inl Scripted.quota_error] [])
                _ _ "found" "stop" {| ts_ticks := 0 |}
                {| Scripted.gemini_replies := [inl Scripted.quota_error];
                   Scripted.perplexity_replies := [];
                   Scripted.now := 1 |}
                eq_refl eq_refl eq_refl eq_refl eq_refl).
  eexists _, _, _. split; [exact Hok |]. split; reflexivity.
Defined.

Lemma hybrid_request_single_flag_witness :
  exists r w1 evs,
    Scripted.exec (APIManager.hybrid_request Scripted.manager [1; 0]%nat "q" true false ∅)
      Scripted.gemini_down = (inr [("search", r)], w1, evs)
    /\ content r = "found".
Proof.
  pose proof (proj1 (hybrid_request_single_flag Scripted.gemini_api Scripted.perplexity_api
                       Scripted.clock Scripted.manager [1; 0]%nat "q" ∅
                       Scripted.gemini_down (lookup_empty "request_type"))) as Hs.
  assert (Scripted.exec (APIManager.route_request Scripted.manager SEARCH "q" ∅)
            Scripted.gemini_down = (inr _, _, _)) as Hr by (vm_compute; reflexivity).
  unfold Scripted.exec in *. rewrite Hr in Hs.
  eexists _, _, _. split; [exact Hs | reflexivity].
Defined.

Lemma hybrid_request_schedule_independent_witness :
  let w := ([inr (Scripted.gemini_ok "thought" 1 1 2)],
            [inr (Scripted.perplexity_ok "found" None None)]) in
  (Demo.exec_alone
     (APIManager.hybrid_request Scripted.manager [1; 0]%nat "q" true true ∅) w).1 =
  (Demo.exec_alone (APIManager.hybrid_request Scripted.manager [] "q" true true ∅) w).1
  /\ (Demo.exec_alone
        (APIManager.hybrid_request Scripted.manager [1; 0]%nat "q" true true ∅) w).2
     ≡ₚ (Demo.exec_alone
           (APIManager.hybrid_request Scripted.manager [] "q" true true ∅) w).2.
Proof.
  intros w.
  exact (hybrid_request_schedule_independent Demo.gemini Demo.perplexity Demo.no_clock
           Scripted.manager [1; 0]%nat "q" true true ∅ w eq_refl eq_refl).
Defined.

Lemma synthesize_responses_empty_witness :
  exists r w1 evs,
    Scripted.exec (APIManager.synthesize_responses Scripted.manager [] None)
      Scripted.synthesis_ok = (inr r, w1, evs)
    /\ content r = "merged"
    /\ citations r = Some []
    /\ usage r = {[ "prompt_tokens" := 3; "completion_tokens" := 2; "total_tokens" := 5 ]}.
Proof.
  destruct (synthesize_responses_empty Scripted.gemini_api Scripted.perplexity_api
              Scripted.clock Scripted.manager None Scripted.synthesis_ok
              (Scripted.gemini_ok "merged" 3 2 5) (Scripted.world [] []) eq_refl)
    as (r & Hrun & Hcontent & Husage & Hcites & _).
  exists r. eexists _, _. split; [exact Hrun |]. split; [exact Hcontent |].
  split; [exact Hcites | exact Husage].
Defined.

Lemma search_stream_stops_at_done_witness :
  Stream.search_stream Demo.strip Demo.loads Demo.client
    (fun _ => inr (Demo.lines, Some Scripted.http_error)) "q" VNone ∅ =
  ([JStr "Hel"; JStr "lo"], None).
Proof.
  etrans;
    [apply (search_stream_stops_at_done Demo.strip Demo.loads Demo.client "q" VNone ∅
              ["data: chunk-1"; ": keep-alive"; "data: {broken"; "data: chunk-2"]
              "data:  [DONE] " ["data: chunk-1"] (Some Scripted.http_error));
     reflexivity
    | reflexivity].
Defined.

Lemma search_stream_transport_error_witness :
  Stream.search_stream Demo.strip Demo.loads Demo.client
    (fun _ => inr (["data: chunk-1"; ": keep-alive"], Some Scripted.http_error)) "q" VNone ∅ =
  ([JStr "Hel"], Some Scripted.http_error).
Proof.
  destruct (search_stream_transport_error Demo.strip Demo.loads Demo.client "q" VNone ∅
              ["data: chunk-1"; ": keep-alive"] Scripted.http_error)
    as (Hitems & _ & Hraised).
  apply injective_projections; [exact Hitems |].
  apply Hraised.
  constructor; [right; eexists; reflexivity |].
  constructor; [left; reflexivity | constructor].
Defined.

Lemma search_stream_chunk_witness :
  Stream.search_stream Demo.strip Demo.loads Demo.client
    (fun _ => inr (["data: chunk-1"; "data: ping"; "data: chunk-2"], None)) "q" VNone ∅ =
  ([JStr "Hel"; JStr "lo"], None).
Proof.
  etrans;
    [apply (proj1 (search_stream_chunk Demo.strip Demo.loads Demo.client "q" VNone ∅
                     "data: chunk-1" ["data: ping"; "data: chunk-2"] None
                     [("id", JStr "c");
                      ("choices", JList [JObj [("delta", JObj [("content", JStr "Hel")])]])]
                     eq_refl ltac:(vm_compute; discriminate) eq_refl)
              [("delta", JObj [("content", JStr "Hel")])] []
              [("content", JStr "Hel")] (JStr "Hel") eq_refl eq_refl eq_refl) |].
  rewrite (proj2 (search_stream_chunk Demo.strip Demo.loads Demo.client "q" VNone ∅
                    "data: ping" ["data: chunk-2"] None [("id", JStr "c")]
                    eq_refl ltac:(vm_compute; discriminate) eq_refl)
             (or_introl eq_refl)).
  reflexivity.
Defined.

Lemma search_stream_scalar_chunk_witness :
  exists e,
    exn_class e = "TypeError"
    /\ Stream.search_stream Demo.strip Demo.loads Demo.client
         (fun _ => inr (["data: 7"; "data: chunk-2"], Some Scripted.http_error))
         "q" VNone ∅ = ([], Some e).
Proof.
  apply (search_stream_scalar_chunk Demo.strip Demo.loads Demo.client "q" VNone ∅
           "data: 7" ["data: chunk-2"] (Some Scripted.http_error) (JInt 7)).
  - reflexivity.
  - vm_compute. discriminate.
  - reflexivity.
  - exact I.
Defined.
